(** * stencil: a templating system for scripts which primarily output text

    A shallow embedding of [stencil.py] (classes [StencilBase], [Compiler],
    [Web2pyStencil], [ErbStencil]) and the properties of the template
    compiler proved over it.

    Modelling conventions.
    - A Python [str] is a [string]; its characters are the code points
      below 256.
    - A Python [int] is a [Z]; lengths are [nat] and are injected with
      [Z.of_nat] where the source adds them to the column.
    - The output sink [out] is the list of the chunks written to it, one
      chunk per call of [Compiler.print]; [getvalue] concatenates them.  The
      sink is mutated in place by the source, so the chunks written before
      an exception is raised stay on it: an outcome keeps the compiler state
      in both cases.
    - The host built-ins [repr] and [compile(source, filename, 'exec')] are
      not part of the program; they are variables of the development. *)

From Stdlib Require Import String Ascii List ZArith Lia Bool.
Import ListNotations.

Local Open Scope string_scope.
Local Open Scope Z_scope.

(** ** Python string operations used by the source *)

Module PyStr.

Definition nl : string := String "010"%char EmptyString.
Definition tab : string := String "009"%char EmptyString.

(** [str.isspace] on one character, for the code points below 256:
    TAB LF VT FF CR, FS GS RS US, SPACE, NEL and NBSP.  The same class is
    what [\s] matches in a [str] pattern. *)
Definition isspace (c : ascii) : bool :=
  let n := nat_of_ascii c in
  ((9 <=? n) && (n <=? 13) || (28 <=? n) && (n <=? 32)
   || (n =? 133) || (n =? 160))%nat.

Definition is_empty (s : string) : bool :=
  match s with EmptyString => true | String _ _ => false end.

Fixpoint lstrip (s : string) : string :=
  match s with
  | EmptyString => EmptyString
  | String c s' => if isspace c then lstrip s' else s
  end.

Fixpoint rstrip (s : string) : string :=
  match s with
  | EmptyString => EmptyString
  | String c s' =>
      match rstrip s' with
      | EmptyString => if isspace c then EmptyString else String c EmptyString
      | r => String c r
      end
  end.

(** [s.strip()] *)
Definition strip (s : string) : string := rstrip (lstrip s).

(** [s[n:]] *)
Fixpoint drop (n : nat) (s : string) : string :=
  match n, s with
  | O, _ => s
  | S n', String _ s' => drop n' s'
  | S _, EmptyString => EmptyString
  end.

(** [s[:n]] *)
Fixpoint take (n : nat) (s : string) : string :=
  match n, s with
  | O, _ => EmptyString
  | S n', String c s' => String c (take n' s')
  | S _, EmptyString => EmptyString
  end.

(** [s[-1]]; [None] stands for the [IndexError] of the empty string. *)
Fixpoint last_char (s : string) : option ascii :=
  match s with
  | EmptyString => None
  | String c EmptyString => Some c
  | String _ s' => last_char s'
  end.

(** [s.startswith(p)] *)
Definition startswith (s p : string) : bool := String.prefix p s.

(** [s.partition(sep)] for a non-empty [sep]: the text before the first
    occurrence, whether there is one, and the text after it. *)
Fixpoint partition (sep s : string) : string * bool * string :=
  if String.prefix sep s then (EmptyString, true, drop (String.length sep) s)
  else
    match s with
    | EmptyString => (EmptyString, false, EmptyString)
    | String c s' =>
        let '(before, found, after) := partition sep s' in
        (String c before, found, after)
    end.

(** [s * n] *)
Fixpoint repeat (s : string) (n : nat) : string :=
  match n with
  | O => EmptyString
  | S n' => s ++ repeat s n'
  end.

(** The lines a [StringIO] yields when iterated: each one ends after its
    line feed, the last one may lack it; no line is empty. *)
Fixpoint splitlines (cur : string -> string) (s : string) : list string :=
  match s with
  | EmptyString =>
      match cur EmptyString with
      | EmptyString => []
      | l => [l]
      end
  | String c s' =>
      if Ascii.eqb c "010"%char
      then cur (String c EmptyString) :: splitlines (fun r => r) s'
      else splitlines (fun r => cur (String c r)) s'
  end.

Definition StringIO (data : string) : list string :=
  splitlines (fun r => r) data.

(** Length of the longest prefix of white space: what [\s*] consumes. *)
Fixpoint span_space (s : string) : nat :=
  match s with
  | EmptyString => O
  | String c s' => if isspace c then S (span_space s') else O
  end.

(** The text of a file, from its lines. *)
Fixpoint join (ls : list string) : string :=
  match ls with
  | [] => EmptyString
  | l :: rest => l ++ join rest
  end.

(** [d] occurs in [s] as a substring. *)
Definition occurs (d s : string) : Prop :=
  exists a b, s = a ++ d ++ b.

End PyStr.

Import PyStr.

(** ** Exceptions and the compiler's state *)

(** The argument tuple of a [SyntaxError], as [syntax_state] builds it:
    file name, line number, column, text of the current physical line. *)
Record Position := mkPosition {
  pos_filename : string;
  pos_lineno : Z;
  pos_column : Z;
  pos_text : string
}.

Inductive Exception :=
| SyntaxError (msg : string) (args : Position)
| IndexError
| ValueError.

(** One entry of [stencil.subs]: the pattern, as the function from a text
    to [match.end()] of [re.match('(%s)' % pat, text)] ([None] when there is
    no match), and the handler called with the matched prefix and the
    remainder. *)
Record Sub := mkSub {
  sub_match : string -> option nat;
  sub_func : string -> string -> string
}.

(** An instance of a [StencilBase] subclass. *)
Record Stencil := mkStencil {
  opener : string;
  closer : string;
  indent : string;
  writer : string;
  file : list string;
  filename : string;
  subs : list Sub;
  dedent : string -> bool
}.

(** The fields of a [Compiler] instance; [out] holds what was written. *)
Record Compiler := mkCompiler {
  line : string;
  column : Z;
  linenumber : Z;
  level : Z;
  multiline : string;
  currentline : string;
  out : list string
}.

Inductive Outcome (A : Type) :=
| Returns (a : A) (c : Compiler)
| Raises (e : Exception) (c : Compiler).
Arguments Returns {A} a c.
Arguments Raises {A} e c.

(** Computations of the compiler: state passing with exceptions. *)
Definition M (A : Type) : Type := Compiler -> Outcome A.

Definition ret {A} (a : A) : M A := fun c => Returns a c.

Definition bind {A B} (m : M A) (k : A -> M B) : M B :=
  fun c =>
    match m c with
    | Returns a c' => k a c'
    | Raises e c' => Raises e c'
    end.

Definition raise {A} (e : Exception) : M A := fun c => Raises e c.

Definition get : M Compiler := fun c => Returns c c.

Definition modify (f : Compiler -> Compiler) : M unit :=
  fun c => Returns tt (f c).

Notation "x <- m ;; k" := (bind m (fun x => k))
  (at level 61, m at next level, right associativity).
Notation "m ;; k" := (bind m (fun _ => k))
  (at level 61, right associativity).

Definition when (b : bool) (m : M unit) : M unit :=
  if b then m else ret tt.

Definition set_line (v : string) (c : Compiler) : Compiler :=
  mkCompiler v (column c) (linenumber c) (level c) (multiline c)
             (currentline c) (out c).
Definition set_column (v : Z) (c : Compiler) : Compiler :=
  mkCompiler (line c) v (linenumber c) (level c) (multiline c)
             (currentline c) (out c).
Definition set_linenumber (v : Z) (c : Compiler) : Compiler :=
  mkCompiler (line c) (column c) v (level c) (multiline c)
             (currentline c) (out c).
Definition set_level (v : Z) (c : Compiler) : Compiler :=
  mkCompiler (line c) (column c) (linenumber c) v (multiline c)
             (currentline c) (out c).
Definition set_multiline (v : string) (c : Compiler) : Compiler :=
  mkCompiler (line c) (column c) (linenumber c) (level c) v
             (currentline c) (out c).
Definition set_currentline (v : string) (c : Compiler) : Compiler :=
  mkCompiler (line c) (column c) (linenumber c) (level c) (multiline c)
             v (out c).
Definition set_out (v : list string) (c : Compiler) : Compiler :=
  mkCompiler (line c) (column c) (linenumber c) (level c) (multiline c)
             (currentline c) v.

(** [Compiler.__init__]: a fresh compiler writing to the sink [o]. *)
Definition Compiler_init (o : list string) : Compiler :=
  mkCompiler "" 0 0 0 "" "" o.

Definition state_of {A} (o : Outcome A) : Compiler :=
  match o with
  | Returns _ c => c
  | Raises _ c => c
  end.

(** The exception an outcome ends with, if it does. *)
Definition raised {A} (o : Outcome A) : option Exception :=
  match o with
  | Returns _ _ => None
  | Raises e _ => Some e
  end.

Definition map_state {A} (f : Compiler -> Compiler) (o : Outcome A)
  : Outcome A :=
  match o with
  | Returns a c => Returns a (f c)
  | Raises e c => Raises e (f c)
  end.

(** The same compiler on a sink that already holds [o]. *)
Definition frame (o : list string) (c : Compiler) : Compiler :=
  set_out (o ++ out c) c.

(** What an outcome shows of the nesting: the value returned, if any, and
    the level left. *)
Definition level_view {A} (o : Outcome A) : option A * Z :=
  match o with
  | Returns a c => (Some a, level c)
  | Raises _ c => (None, level c)
  end.

(** ** The compiler *)

Module Compiler.
Section WithHost.

(** The host's [repr] on strings. *)
Variable repr : string -> string.

(** The host's [compile(source, filename, 'exec')]: [None] when the source
    is accepted, otherwise the message and the offset of the
    [SyntaxError] it raises. *)
Variable builtin_compile : string -> string -> option (string * Z).

Variable stencil : Stencil.

(** What [print(indent * level, text, sep='', file=out)] writes: the
    statement [text] at nesting level [lvl]. *)
Definition statement (lvl : Z) (text : string) : string :=
  PyStr.repeat (indent stencil) (Z.to_nat lvl) ++ text ++ nl.

(** [Compiler.print]: write a statement with the indentation of the
    current level. *)
Definition print (text : string) : M unit :=
  modify (fun c => set_out (out c ++ [statement (level c) text]) c).

(** [Compiler.syntax_state]: the arguments for a [SyntaxError]. *)
Definition syntax_state (offset : Z) (c : Compiler) : Position :=
  mkPosition (filename stencil) (linenumber c) (column c + offset)
             (currentline c).

Definition raise_syntax_error (msg : string) (offset : Z) : M unit :=
  c <- get ;; raise (SyntaxError msg (syntax_state offset c)).

(** The [for pat, func in self.stencil.subs.items()] loop with its
    [break]: the first entry whose pattern matches, with [match.end()]. *)
Fixpoint find_sub (l : list Sub) (text : string) : option (Sub * nat) :=
  match l with
  | [] => None
  | s :: rest =>
      match sub_match s text with
      | Some e => Some (s, e)
      | None => find_sub rest text
      end
  end.

(** [any(text.startswith(b) for b in {'elif', 'else', 'except', 'finally'})] *)
Definition continuation (text : string) : bool :=
  existsb (startswith text) ["elif"; "else"; "except"; "finally"].

(** [text[-1] == ':'], raising [IndexError] on the empty string. *)
Definition ends_with_colon (text : string) : M bool :=
  match last_char text with
  | None => raise IndexError
  | Some ch => ret (Ascii.eqb ch ":"%char)
  end.

(** Lines 185-204 of [process_substitution], on the stripped, non-empty
    text: the handler table, and the [else] clause of the loop when no
    pattern matches.  Returns the value of the variable [text] after it. *)
Definition dispatch (text : string) : M string :=
  match find_sub (subs stencil) text with
  | Some (s, e) =>
      modify (fun c => set_column (column c + Z.of_nat e) c) ;;
      let remainder := drop e text in
      print (sub_func s (take e text) remainder) ;;
      ret remainder
  | None =>
      let is_dedent := dedent stencil text in
      when (is_dedent || continuation text)
        (modify (fun c => set_level (level c - 1) c) ;;
         c <- get ;;
         when (level c <? 0)
           (raise_syntax_error "Got dedent outside of block" 0)) ;;
      when (negb is_dedent) (print text) ;;
      colon <- ends_with_colon text ;;
      when colon (modify (fun c => set_level (level c + 1) c)) ;;
      ret text
  end.

(** Lines 209-214: the stubs that make a block statement compile alone. *)
Definition add_stubs (block_check : string) : string :=
  (if String.eqb (take 2 block_check) "el"
   then "if 1:pass" ++ nl ++ block_check
   else if startswith block_check "except"
           || startswith block_check "finally"
        then "try:pass" ++ nl ++ block_check
        else block_check)
  ++ nl ++ tab ++ "pass".

(** Lines 205-219: the syntax check of the fragment. *)
Definition validate (text : string) : M unit :=
  colon <- ends_with_colon text ;;
  let block_check := if colon : bool then add_stubs text else text in
  match builtin_compile block_check (filename stencil) with
  | None => ret tt
  | Some (msg, offset) => raise_syntax_error msg offset
  end.

(** [Compiler.process_substitution]: process content inside a
    substitution. *)
Definition process_substitution (text : string) : M unit :=
  let text := strip text in
  if is_empty text then ret tt
  else text' <- dispatch text ;; validate text'.

(** The literal statement [writer(repr(text))]. *)
Definition literal (text : string) : string :=
  writer stencil ++ "(" ++ repr text ++ ")".

(** Lines 167-170: a completed span goes to [process_substitution] when
    it is a directive, and is written as a literal when it is not empty
    otherwise. *)
Definition emit_span (insub : bool) (text : string) : M unit :=
  if insub then process_substitution text
  else when (negb (is_empty text)) (print (literal text)).

(** The [while self.line:] loop of [compile] on one buffer.  Each turn
    that does not leave the loop shortens [line] by a non-empty
    delimiter at least, so [String.length line] turns are enough; see
    [while_line_fuel]. *)
Fixpoint while_line (fuel : nat) (insub : bool) : M bool :=
  match fuel with
  | O => ret insub
  | S fuel' =>
      fun c =>
        if is_empty (line c) then Returns insub c
        else
          let delimiter := if insub then closer stencil
                           else opener stencil in
          if is_empty delimiter then Raises ValueError c
          else
            let '(text, found, rest) := partition delimiter (line c) in
            let c := set_line rest c in
            if negb found
            then Returns insub (set_multiline (multiline c ++ text) c)
            else
              (emit_span insub text ;;
               modify (fun c =>
                 set_column (column c + Z.of_nat (String.length text)
                             + Z.of_nat (String.length delimiter)) c) ;;
               while_line fuel' (negb insub)) c
  end.

(** One turn of the [for] loop over the physical lines. *)
Definition scan_line (n : Z) (l : string) (insub : bool) : M bool :=
  modify (fun c => set_line l (set_linenumber n c)) ;;
  modify (fun c =>
    set_currentline (line c)
      (set_line (multiline c ++ line c) (set_multiline "" c))) ;;
  modify (set_column 0) ;;
  c <- get ;;
  while_line (String.length (line c)) insub.

(** The [for self.linenumber, self.line in enumerate(file, 1)] loop,
    from line number [n] on. *)
Fixpoint scan_lines (n : Z) (lines : list string) (insub : bool) : M bool :=
  match lines with
  | [] => ret insub
  | l :: rest =>
      insub' <- scan_line n l insub ;;
      scan_lines (n + 1) rest insub'
  end.

(** Lines 173-177: what is left in the buffer at the end of the input. *)
Definition finish (insub : bool) : M unit :=
  c <- get ;;
  when (negb (is_empty (multiline c)))
    (if insub
     then raise_syntax_error "Unclosed substitution" 0
     else print (literal (multiline c))).

(** [Compiler.compile]: compile a stencil into a python script. *)
Definition compile : M unit :=
  insub <- scan_lines 1 (file stencil) false ;;
  finish insub.

End WithHost.
End Compiler.

(** ** The stencil classes *)

Module StencilBase.

(** [StencilBase.dedent]: whether the token ends the current block. *)
Definition dedent (token : string) : bool := String.eqb token "pass".

(** [StencilBase.on_equal_sign] *)
Definition on_equal_sign (writer : string) (_ remainder : string) : string :=
  writer ++ "(str(" ++ remainder ++ "))".

(** [re.match] of the pattern [=\s*] wrapped in a group: an equal sign,
    then all the white space that follows. *)
Definition match_equal_sign (text : string) : option nat :=
  match text with
  | String ch rest =>
      if Ascii.eqb ch "="%char then Some (S (span_space rest)) else None
  | EmptyString => None
  end.

Definition default_writer : string := "sys.stdout.write".

Definition default_subs : list Sub :=
  [mkSub match_equal_sign (on_equal_sign default_writer)].

(** [StencilBase.compile]: run a fresh [Compiler] on the sink [o]. *)
Definition compile repr builtin_compile (self : Stencil) (o : list string)
  : Outcome unit :=
  Compiler.compile repr builtin_compile self (Compiler_init o).

(** [StencilBase.parse]: compile a script directly from text; [cls] is
    the constructor of the class. *)
Definition parse repr builtin_compile
           (cls : list string -> string -> Stencil)
           (data : string) (o : list string) : Outcome unit :=
  compile repr builtin_compile (cls (StringIO data) "<string>") o.

(** [out.getvalue()] *)
Definition getvalue (o : list string) : string :=
  fold_right String.append EmptyString o.

End StencilBase.

Module Web2pyStencil.

(** [Web2pyStencil.on_extend] *)
Definition on_extend (_ remainder : string) : string :=
  "#Extending " ++ remainder.

(** [re.match] of the pattern [extend\s+] wrapped in a group: the word,
    then at least one white space and all that follow. *)
Definition match_extend (text : string) : option nat :=
  if startswith text "extend"
  then match span_space (drop 6 text) with
       | O => None
       | S n => Some (6 + S n)%nat
       end
  else None.

Definition init (path_or_file : list string) (filename : string) : Stencil :=
  mkStencil "{{" "}}" tab StencilBase.default_writer path_or_file filename
            (StencilBase.default_subs ++ [mkSub match_extend on_extend])
            StencilBase.dedent.

End Web2pyStencil.

Module ErbStencil.

Definition init (path_or_file : list string) (filename : string) : Stencil :=
  mkStencil "<%" "%>" tab StencilBase.default_writer path_or_file filename
            StencilBase.default_subs StencilBase.dedent.

End ErbStencil.

(** ** Sample hosts, for evaluating the compiler on concrete templates *)

(** [repr] on strings of printable ASCII characters without quote or
    backslash: the text between single quotes. *)
Definition repr_plain (s : string) : string := "'" ++ s ++ "'".

(** A host parser that accepts every fragment. *)
Definition accept_all (source fname : string) : option (string * Z) := None.

(** A host parser that rejects exactly the incomplete expression [1+], as
    the Python parser does, and accepts any other fragment. *)
Definition reject_incomplete (source fname : string) : option (string * Z) :=
  if String.eqb source "1+" then Some ("invalid syntax", 3) else None.

(** ** Views of an outcome *)

(** An exception without the position it was raised at. *)
Definition unpositioned (e : Exception) : Exception :=
  match e with
  | SyntaxError msg _ => SyntaxError msg (mkPosition "" 0 0 "")
  | IndexError => IndexError
  | ValueError => ValueError
  end.

(** What an outcome shows when positions are left aside: the value
    returned or the exception without its position, and the level, the
    multi-line buffer and the sink that are left. *)
Definition text_view {A} (o : Outcome A)
  : (A + Exception) * (Z * string * list string) :=
  match o with
  | Returns a c => (inl a, (level c, multiline c, out c))
  | Raises e c => (inr (unpositioned e), (level c, multiline c, out c))
  end.

(** The stencil reading another file. *)
Definition with_file (f : list string) (s : Stencil) : Stencil :=
  mkStencil (opener s) (closer s) (indent s) (writer s) f (filename s)
            (subs s) (dedent s).

(** ** Facts about the string operations *)

Section StringFacts.

Lemma append_nil_r (s : string) : s ++ "" = s.
Proof. induction s as [|ch s IH]; simpl; [reflexivity | now rewrite IH]. Qed.

Lemma append_assoc (a b d : string) : (a ++ b) ++ d = a ++ (b ++ d).
Proof. induction a as [|ch a IH]; simpl; [reflexivity | now rewrite IH]. Qed.

Lemma length_append (a b : string) :
  String.length (a ++ b) = (String.length a + String.length b)%nat.
Proof. induction a as [|ch a IH]; simpl; [reflexivity | now rewrite IH]. Qed.

Lemma is_empty_true (s : string) : is_empty s = true <-> s = "".
Proof. destruct s; simpl; split; intro H; try reflexivity; discriminate. Qed.

Lemma is_empty_false (s : string) : is_empty s = false <-> s <> "".
Proof.
  destruct s; simpl; split; intro H; try reflexivity; try discriminate.
  now elim H.
Qed.

Lemma prefix_cons_inv (a : ascii) (p s : string) :
  String.prefix (String a p) s = true ->
  exists s', s = String a s' /\ String.prefix p s' = true.
Proof.
  destruct s as [|b s]; simpl; [discriminate|].
  destruct (ascii_dec a b) as [->|]; [|discriminate].
  intro H. now exists s.
Qed.

Lemma prefix_split (d s : string) :
  String.prefix d s = true ->
  s = d ++ drop (String.length d) s.
Proof.
  revert s. induction d as [|a d IH]; intros s H; [reflexivity|].
  apply prefix_cons_inv in H. destruct H as (s' & -> & H).
  simpl. f_equal. now apply IH.
Qed.

Lemma occurs_cons (d s : string) (ch : ascii) :
  occurs d s -> occurs d (String ch s).
Proof. intros (a & b & ->). now exists (String ch a), b. Qed.

Lemma occurs_app_l (d a b : string) : occurs d a -> occurs d (a ++ b).
Proof.
  intros (x & y & ->). exists x, (y ++ b).
  now rewrite !append_assoc.
Qed.

Lemma occurs_empty (s : string) : occurs "" s.
Proof. now exists "", s. Qed.

Lemma partition_eq (d s : string) :
  partition d s =
  if String.prefix d s then ("", true, drop (String.length d) s)
  else match s with
       | "" => ("", false, "")
       | String ch s' =>
           let '(before, found, after) := partition d s' in
           (String ch before, found, after)
       end.
Proof. destruct s; reflexivity. Qed.

(** [partition] finds nothing in a text without occurrence, and then
    gives the whole text back. *)
Lemma partition_not_found (d s : string) :
  ~ occurs d s -> partition d s = (s, false, "").
Proof.
  induction s as [|ch s IH]; intro H.
  - simpl. destruct d as [|a d]; [elim H; apply occurs_empty | reflexivity].
  - rewrite partition_eq.
    destruct (String.prefix d (String ch s)) eqn:E.
    + elim H. exists "", (drop (String.length d) (String ch s)).
      simpl append at 1. now apply prefix_split.
    + rewrite IH; [reflexivity|].
      intro H'. apply H. now apply occurs_cons.
Qed.

Lemma prefix_append (d b : string) : String.prefix d (d ++ b) = true.
Proof.
  induction d as [|ch d IH]; simpl; [now destruct b|].
  destruct (ascii_dec ch ch) as [_|N]; [exact IH | now elim N].
Qed.

(** [partition] finds the delimiter in every text where it occurs. *)
Lemma occurs_partition (d s : string) :
  occurs d s -> exists t r, partition d s = (t, true, r).
Proof.
  intros (a & b & ->). induction a as [|ch a IH].
  - simpl append. rewrite partition_eq, prefix_append. eauto.
  - simpl append. rewrite partition_eq.
    destruct (String.prefix d _); [eauto|].
    destruct IH as (t & r & ->). eauto.
Qed.

(** What [partition] finds is a decomposition of the text. *)
Lemma partition_found (d s t r : string) :
  partition d s = (t, true, r) -> s = t ++ d ++ r.
Proof.
  revert t. induction s as [|ch s IH]; intros t; rewrite partition_eq.
  - destruct (String.prefix d "") eqn:E; [|discriminate].
    intro H. inversion H; subst. simpl. now apply prefix_split.
  - destruct (String.prefix d (String ch s)) eqn:E.
    + intro H. inversion H; subst. simpl append at 1. now apply prefix_split.
    + destruct (partition d s) as [[t' f'] r'] eqn:P.
      intro H. inversion H; subst. simpl. f_equal. now apply IH.
Qed.

Lemma partition_shorter (d s t r : string) :
  d <> "" -> partition d s = (t, true, r) ->
  (String.length r < String.length s)%nat.
Proof.
  intros Hd H. apply partition_found in H. subst s.
  rewrite !length_append. destruct d; [now elim Hd | simpl; lia].
Qed.

Lemma take_length (s : string) : take (String.length s) s = s.
Proof. induction s as [|ch s IH]; simpl; [reflexivity | now rewrite IH]. Qed.

Lemma drop_length (s : string) : drop (String.length s) s = "".
Proof. induction s as [|ch s IH]; simpl; [reflexivity | exact IH]. Qed.

Lemma join_splitlines (cur : string -> string) (s : string) :
  (forall r, cur r = cur "" ++ r) ->
  join (splitlines cur s) = cur s.
Proof.
  revert cur. induction s as [|ch s IH]; intros cur Hcur; simpl.
  - destruct (cur "") eqn:E; simpl; [reflexivity | now rewrite append_nil_r].
  - destruct (Ascii.eqb ch "010") eqn:E.
    + simpl. rewrite IH by reflexivity.
      rewrite (Hcur (String ch "")), (Hcur (String ch s)).
      now rewrite append_assoc.
    + rewrite IH; [reflexivity|].
      intro r. rewrite (Hcur (String ch r)), (Hcur (String ch "")).
      now rewrite append_assoc.
Qed.

(** The lines of a [StringIO] put end to end are its text. *)
Lemma join_StringIO (data : string) : join (StringIO data) = data.
Proof. unfold StringIO. now apply join_splitlines. Qed.

End StringFacts.

(** ** Facts about the compiler *)

Ltac unfold_compiler :=
  unfold Compiler.emit_span, Compiler.process_substitution,
    Compiler.dispatch, Compiler.validate, Compiler.ends_with_colon,
    Compiler.raise_syntax_error, Compiler.syntax_state, Compiler.print,
    Compiler.statement, when, bind, ret, raise, get, modify in *.

Ltac break_match :=
  repeat (match goal with
          | |- context [match ?x with _ => _ end] =>
              lazymatch x with
              | context [match _ with _ => _ end] => fail
              | _ => destruct x eqn:?
              end
          end; simpl).

Section CompilerFacts.

Variable repr : string -> string.
Variable builtin_compile : string -> string -> option (string * Z).
Variable stencil : Stencil.

Local Abbreviation process_substitution :=
  (Compiler.process_substitution builtin_compile stencil).
Local Abbreviation dispatch := (Compiler.dispatch stencil).
Local Abbreviation validate := (Compiler.validate builtin_compile stencil).
Local Abbreviation statement := (Compiler.statement stencil).
Local Abbreviation emit_span := (Compiler.emit_span repr builtin_compile stencil).
Local Abbreviation while_line :=
  (Compiler.while_line repr builtin_compile stencil).
Local Abbreviation scan_line := (Compiler.scan_line repr builtin_compile stencil).
Local Abbreviation scan_lines :=
  (Compiler.scan_lines repr builtin_compile stencil).
Local Abbreviation finish := (Compiler.finish repr stencil).
Local Abbreviation compile := (Compiler.compile repr builtin_compile stencil).

(** A span touches neither the buffers nor the line counter. *)
Lemma emit_span_fields (insub : bool) (text : string) (c : Compiler) :
  let c' := state_of (emit_span insub text c) in
  line c' = line c /\ multiline c' = multiline c /\
  linenumber c' = linenumber c /\ currentline c' = currentline c.
Proof.
  unfold_compiler. simpl. break_match; auto.
Qed.

(** A span only appends to the sink, and what it appends, like what it
    returns or raises, does not depend on what the sink holds. *)
Lemma emit_span_frame (o : list string) (insub : bool) (text : string)
      (c : Compiler) :
  emit_span insub text (frame o c) = map_state (frame o) (emit_span insub text c).
Proof.
  unfold_compiler. unfold frame. destruct c; simpl.
  break_match; simpl; unfold set_out, set_level, set_column; simpl;
    rewrite <- ?app_assoc; try reflexivity; try congruence.
Qed.


(** A literal span is written, when it is not empty, and leaves the level
    as it is. *)
Lemma literal_span_level (text : string) (c : Compiler) :
  level_view (emit_span false text c) = (Some tt, level c).
Proof.
  unfold_compiler. destruct (negb (is_empty text)); reflexivity.
Qed.

(** The handler path of [dispatch]: the statement the handler returns is
    written at the current level, the column moves by the length of the
    match, the level stays. *)
Lemma dispatch_handler (t : string) (c : Compiler) (s : Sub) (e : nat) :
  Compiler.find_sub (subs stencil) t = Some (s, e) ->
  dispatch t c =
  Returns (drop e t)
    (set_out (out c ++ [statement (level c)
                          (sub_func s (take e t) (drop e t))])
       (set_column (column c + Z.of_nat e) c)).
Proof.
  intro H. unfold Compiler.dispatch. rewrite H. reflexivity.
Qed.

(** The pass-through path of [dispatch]. *)
Lemma dispatch_passthrough (t : string) (c : Compiler) (ch : ascii) :
  Compiler.find_sub (subs stencil) t = None ->
  last_char t = Some ch ->
  dispatch t c =
  let dec := dedent stencil t || Compiler.continuation t in
  let lvl := if dec then level c - 1 else level c in
  if dec && (lvl <? 0)
  then Raises (SyntaxError "Got dedent outside of block"
                 (mkPosition (filename stencil) (linenumber c) (column c)
                             (currentline c)))
              (set_level lvl c)
  else Returns t
         (set_level (if Ascii.eqb ch ":" then lvl + 1 else lvl)
            (set_out (if dedent stencil t then out c
                      else out c ++ [statement lvl t]) c)).
Proof.
  intros H L. unfold Compiler.dispatch. rewrite H.
  unfold_compiler. rewrite L. destruct c; simpl.
  break_match; simpl in *; rewrite ?Z.add_0_r; try reflexivity;
    try discriminate; try congruence.
Qed.

Lemma validate_spec (t : string) (c : Compiler) (ch : ascii) :
  last_char t = Some ch ->
  validate t c =
  match builtin_compile (if Ascii.eqb ch ":" then Compiler.add_stubs t else t)
                        (filename stencil) with
  | None => Returns tt c
  | Some (msg, off) =>
      Raises (SyntaxError msg
                (mkPosition (filename stencil) (linenumber c)
                            (column c + off) (currentline c))) c
  end.
Proof.
  intro L. unfold Compiler.validate. unfold_compiler. rewrite L.
  destruct (builtin_compile _ _) as [[msg off]|]; reflexivity.
Qed.

(** The syntax check changes nothing in the compiler. *)
Lemma validate_state (t : string) (c : Compiler) :
  state_of (validate t c) = c.
Proof.
  unfold Compiler.validate. unfold_compiler.
  destruct (last_char t); simpl; [|reflexivity].
  destruct (builtin_compile _ _) as [[msg off]|]; reflexivity.
Qed.

Lemma last_char_nonempty (s : string) :
  is_empty s = false -> exists ch, last_char s = Some ch.
Proof.
  destruct s as [|a s]; [discriminate|]. intros _. revert a.
  induction s as [|b s IH]; intro a; [now exists a|].
  destruct (IH b) as (ch & H). exists ch. exact H.
Qed.

Lemma validate_empty (c : Compiler) : validate "" c = Raises IndexError c.
Proof. reflexivity. Qed.

Lemma process_substitution_eq (text : string) (c : Compiler) :
  process_substitution text c =
  if is_empty (strip text) then Returns tt c
  else match dispatch (strip text) c with
       | Returns t c1 => validate t c1
       | Raises e c1 => Raises e c1
       end.
Proof.
  unfold Compiler.process_substitution.
  destruct (is_empty (strip text)); reflexivity.
Qed.

Lemma while_line_S (fuel : nat) (insub : bool) (c : Compiler) :
  while_line (S fuel) insub c =
  if is_empty (line c) then Returns insub c
  else
    let delimiter := if insub then closer stencil else opener stencil in
    if is_empty delimiter then Raises ValueError c
    else
      let '(text, found, rest) := partition delimiter (line c) in
      let c := set_line rest c in
      if negb found
      then Returns insub (set_multiline (multiline c ++ text) c)
      else
        match emit_span insub text c with
        | Returns _ c' =>
            while_line fuel (negb insub)
              (set_column (column c' + Z.of_nat (String.length text)
                           + Z.of_nat (String.length delimiter)) c')
        | Raises e c' => Raises e c'
        end.
Proof.
  simpl. destruct (is_empty (line c)); [reflexivity|].
  destruct (is_empty (if insub then closer stencil else opener stencil));
    [reflexivity|].
  destruct (partition _ (line c)) as [[text found] rest].
  destruct found; simpl; [|reflexivity].
  unfold bind, modify.
  destruct (Compiler.emit_span _ _ _ _ _ _); reflexivity.
Qed.

Lemma length_zero (s : string) : (String.length s <= 0)%nat -> s = "".
Proof. destruct s; simpl; [reflexivity | lia]. Qed.

(** The loop never runs out of turns: any number of them that is at least
    the length of the buffer gives the same outcome. *)
Lemma while_line_fuel (f1 f2 : nat) (insub : bool) (c : Compiler) :
  (String.length (line c) <= f1)%nat ->
  (String.length (line c) <= f2)%nat ->
  while_line f1 insub c = while_line f2 insub c.
Proof.
  revert f2 insub c.
  induction f1 as [|f1 IH]; intros f2 insub c H1 H2.
  - apply length_zero in H1.
    destruct f2; [reflexivity|]. rewrite while_line_S, H1. reflexivity.
  - destruct f2 as [|f2].
    + apply length_zero in H2. rewrite while_line_S, H2. reflexivity.
    + rewrite !while_line_S. cbv zeta.
      destruct (is_empty (line c)); [reflexivity|].
      destruct (is_empty (if insub then closer stencil else opener stencil))
        eqn:D; [reflexivity|].
      destruct (partition _ (line c)) as [[text found] rest] eqn:P.
      destruct found; simpl; [|reflexivity].
      apply partition_shorter in P; [|now apply is_empty_false].
      pose proof (emit_span_fields insub text (set_line rest c)) as F.
      destruct (emit_span insub text (set_line rest c)) as [[] c'|e c'];
        [|reflexivity].
      simpl in F. destruct F as (F & _).
      apply IH; simpl; rewrite F; lia.
Qed.


Lemma while_line_frame (o : list string) (fuel : nat) (insub : bool)
      (c : Compiler) :
  while_line fuel insub (frame o c) = map_state (frame o) (while_line fuel insub c).
Proof.
  revert insub c. induction fuel as [|fuel IH]; intros insub c;
    [reflexivity|].
  rewrite !while_line_S. change (line (frame o c)) with (line c). cbv zeta.
  destruct (is_empty (line c)); [reflexivity|].
  destruct (is_empty (if insub then closer stencil else opener stencil));
    [reflexivity|].
  destruct (partition _ (line c)) as [[text found] rest].
  destruct found; simpl; [|reflexivity].
  change (set_line rest (frame o c)) with (frame o (set_line rest c)).
  rewrite emit_span_frame.
  destruct (emit_span insub text (set_line rest c)) as [[] c'|e c'];
    [|reflexivity].
  simpl. apply (IH (negb insub) (set_column _ c')).
Qed.

Lemma scan_line_frame (o : list string) (n : Z) (l : string) (insub : bool)
      (c : Compiler) :
  scan_line n l insub (frame o c) = map_state (frame o) (scan_line n l insub c).
Proof.
  unfold Compiler.scan_line, bind, modify, get. simpl.
  apply (while_line_frame o _ insub
           (set_column 0 (set_currentline l
              (set_line (multiline c ++ l) (set_multiline ""
                 (set_line l (set_linenumber n c))))))).
Qed.

Lemma scan_lines_frame (o : list string) (lines : list string) (n : Z)
      (insub : bool) (c : Compiler) :
  scan_lines n lines insub (frame o c)
  = map_state (frame o) (scan_lines n lines insub c).
Proof.
  revert n insub c. induction lines as [|l lines IH]; intros n insub c;
    [reflexivity|].
  simpl. unfold bind. rewrite scan_line_frame.
  destruct (scan_line n l insub c) as [b c'|e c']; [|reflexivity].
  apply IH.
Qed.

Lemma finish_frame (o : list string) (insub : bool) (c : Compiler) :
  finish insub (frame o c) = map_state (frame o) (finish insub c).
Proof.
  unfold Compiler.finish, Compiler.raise_syntax_error, Compiler.print,
    when, bind, get, modify, raise, ret.
  simpl. destruct (is_empty (multiline c)); simpl; [reflexivity|].
  destruct insub; simpl; [reflexivity|].
  unfold frame, set_out. simpl. now rewrite <- app_assoc.
Qed.

(** Compilation only appends to the sink; what it appends and how it ends
    do not depend on what the sink held. *)
Lemma compile_frame (o : list string) (c : Compiler) :
  compile (frame o c) = map_state (frame o) (compile c).
Proof.
  unfold Compiler.compile, bind. rewrite scan_lines_frame.
  destruct (scan_lines 1 (file stencil) false c) as [b c'|e c'];
    [|reflexivity].
  apply finish_frame.
Qed.

(** The loop on one buffer leaves the line counter and the text of the
    physical line as they are. *)
Lemma while_line_fields (fuel : nat) (insub : bool) (c : Compiler) :
  let c' := state_of (while_line fuel insub c) in
  linenumber c' = linenumber c /\ currentline c' = currentline c.
Proof.
  revert insub c. induction fuel as [|fuel IH]; intros insub c;
    [simpl; auto|].
  rewrite while_line_S. cbv zeta.
  destruct (is_empty (line c)); [simpl; auto|].
  destruct (is_empty (if insub then closer stencil else opener stencil));
    [simpl; auto|].
  destruct (partition _ (line c)) as [[text found] rest].
  destruct found; cbv beta iota delta [negb]; [|simpl; auto].
  pose proof (emit_span_fields insub text (set_line rest c))
    as (_ & _ & Fn & Fc).
  destruct (emit_span insub text (set_line rest c)) as [[] c'|e c'];
    simpl in Fn, Fc; [|simpl; auto].
  specialize (IH (negb insub)
                (set_column (column c' + Z.of_nat (String.length text)
                             + Z.of_nat (String.length
                                 (if insub then closer stencil
                                  else opener stencil))) c')).
  cbv zeta in IH. simpl in IH. destruct IH as (IHn & IHc).
  cbv zeta. split; [exact (eq_trans IHn Fn) | exact (eq_trans IHc Fc)].
Qed.

(** After the lines are read, the compiler is on the last of them. *)
Lemma scan_lines_position (lines : list string) (n : Z) (insub b : bool)
      (c c1 : Compiler) :
  scan_lines n lines insub c = Returns b c1 ->
  lines <> [] ->
  linenumber c1 = n + Z.of_nat (List.length lines) - 1
  /\ currentline c1 = last lines "".
Proof.
  revert n insub c. induction lines as [|l rest IH]; intros n insub c R Hne;
    [now elim Hne|].
  cbn [Compiler.scan_lines] in R. unfold bind in R.
  destruct (scan_line n l insub c) as [b' c'|e c'] eqn:S; [|discriminate R].
  assert (P : linenumber c' = n /\ currentline c' = l).
  { unfold Compiler.scan_line, bind, modify, get in S.
    cbv beta iota in S.
    match type of S with
    | Compiler.while_line _ _ _ ?f ?i ?c0 = _ =>
        pose proof (while_line_fields f i c0) as W
    end.
    rewrite S in W. exact W. }
  destruct P as (Pn & Pc).
  destruct rest as [|l' rest].
  - simpl in R. inversion R; subst c1. simpl. split; [lia | exact Pc].
  - destruct (IH (n + 1) b' c' R) as (In & Ic); [discriminate|].
    split.
    + rewrite In. cbn [List.length]. lia.
    + rewrite Ic. reflexivity.
Qed.

(** A turn on a non-empty buffer without the awaited delimiter moves the
    whole buffer to the multi-line buffer and leaves the loop. *)
Lemma while_line_not_found (fuel : nat) (insub : bool) (c : Compiler) :
  line c <> "" ->
  ~ occurs (if insub then closer stencil else opener stencil) (line c) ->
  while_line (S fuel) insub c =
  Returns insub (set_multiline (multiline c ++ line c) (set_line "" c)).
Proof.
  intros Hl Ho. rewrite while_line_S. cbv zeta.
  apply is_empty_false in Hl. rewrite Hl.
  destruct (is_empty (if insub then closer stencil else opener stencil))
    eqn:D.
  - apply is_empty_true in D. rewrite D in Ho. elim Ho. apply occurs_empty.
  - rewrite (partition_not_found _ _ Ho). reflexivity.
Qed.

(** A physical line read in literal mode, when the buffer it completes
    holds no opener: the buffer grows by the line, nothing is written. *)
Lemma scan_line_literal (n : Z) (l : string) (c : Compiler) :
  ~ occurs (opener stencil) (multiline c ++ l) ->
  scan_line n l false c =
  Returns false (mkCompiler "" 0 n (level c) (multiline c ++ l) l (out c)).
Proof.
  intro Ho. unfold Compiler.scan_line, bind, modify, get. simpl.
  destruct (multiline c ++ l) as [|ch b] eqn:E.
  - reflexivity.
  - cbn [String.length].
    rewrite while_line_not_found; simpl; [reflexivity | discriminate | exact Ho].
Qed.

Lemma scan_lines_literal (lines : list string) (n : Z) (c : Compiler) :
  ~ occurs (opener stencil) (multiline c ++ join lines) ->
  exists c',
    scan_lines n lines false c = Returns false c' /\
    multiline c' = multiline c ++ join lines /\
    level c' = level c /\ out c' = out c.
Proof.
  revert n c. induction lines as [|l lines IH]; intros n c Ho.
  - exists c. simpl. now rewrite append_nil_r.
  - simpl in Ho. simpl Compiler.scan_lines. unfold bind.
    rewrite scan_line_literal.
    + destruct (IH (n + 1) (mkCompiler "" 0 n (level c) (multiline c ++ l)
                                       l (out c))) as (c' & R & Hm & Hv & Hout).
      * simpl. now rewrite append_assoc.
      * exists c'. simpl in *. rewrite Hm, append_assoc. auto.
    + intro H. apply Ho. rewrite <- append_assoc. now apply occurs_app_l.
Qed.

End CompilerFacts.

(** ** Compilation and the host parser *)

Section HostExt.

Variable repr : string -> string.
Variables chk1 chk2 : string -> string -> option (string * Z).
Variable stencil : Stencil.
Hypothesis chk_agree : forall source fname, chk1 source fname = chk2 source fname.

Lemma emit_span_ext (insub : bool) (text : string) (c : Compiler) :
  Compiler.emit_span repr chk1 stencil insub text c
  = Compiler.emit_span repr chk2 stencil insub text c.
Proof.
  destruct insub; [|reflexivity]. simpl.
  rewrite !process_substitution_eq.
  destruct (is_empty (strip text)); [reflexivity|].
  destruct (Compiler.dispatch stencil (strip text) c) as [t c1|e c1];
    [|reflexivity].
  unfold Compiler.validate, bind.
  destruct (Compiler.ends_with_colon t c1) as [colon c2|e c2]; [|reflexivity].
  now rewrite chk_agree.
Qed.

Lemma while_line_ext (fuel : nat) (insub : bool) (c : Compiler) :
  Compiler.while_line repr chk1 stencil fuel insub c
  = Compiler.while_line repr chk2 stencil fuel insub c.
Proof.
  revert insub c. induction fuel as [|fuel IH]; intros insub c;
    [reflexivity|].
  rewrite !while_line_S. cbv zeta.
  destruct (is_empty (line c)); [reflexivity|].
  destruct (is_empty (if insub then closer stencil else opener stencil));
    [reflexivity|].
  destruct (partition _ (line c)) as [[text found] rest].
  destruct found; simpl; [|reflexivity].
  rewrite emit_span_ext.
  destruct (Compiler.emit_span repr chk2 stencil insub text _)
    as [[] c'|e c']; [apply IH | reflexivity].
Qed.

Lemma scan_lines_ext (lines : list string) (n : Z) (insub : bool)
      (c : Compiler) :
  Compiler.scan_lines repr chk1 stencil n lines insub c
  = Compiler.scan_lines repr chk2 stencil n lines insub c.
Proof.
  revert n insub c. induction lines as [|l lines IH]; intros n insub c;
    [reflexivity|].
  cbn [Compiler.scan_lines]. unfold bind.
  assert (L : Compiler.scan_line repr chk1 stencil n l insub c
              = Compiler.scan_line repr chk2 stencil n l insub c).
  { unfold Compiler.scan_line, bind, modify, get. cbv beta iota.
    apply while_line_ext. }
  rewrite L.
  destruct (Compiler.scan_line repr chk2 stencil n l insub c) as [b c'|e c'];
    [apply IH | reflexivity].
Qed.

(** Two host parsers that answer alike give the same compilation. *)
Lemma compile_ext (c : Compiler) :
  Compiler.compile repr chk1 stencil c = Compiler.compile repr chk2 stencil c.
Proof.
  unfold Compiler.compile, bind. now rewrite scan_lines_ext.
Qed.

End HostExt.

(** [parse] on a sink that holds [o] is [parse] on the empty sink, with
    [o] before what it wrote. *)
Lemma parse_frame repr chk cls (data : string) (o : list string) :
  StencilBase.parse repr chk cls data o
  = map_state (frame o) (StencilBase.parse repr chk cls data []).
Proof.
  unfold StencilBase.parse, StencilBase.compile.
  rewrite <- compile_frame. unfold frame, Compiler_init, set_out.
  simpl. now rewrite app_nil_r.
Qed.

(** ** The shipped classes *)

Section Shipped.

Variable path_or_file : list string.
Variable fname : string.


End Shipped.

(** ** Properties of the compiler *)

(** C10. A non-empty directive that a matching pattern consumes entirely
    leaves the empty remainder: the handler's statement is written, and the
    test [block_check[-1]] then raises [IndexError], which is none of the
    three diagnostics.  The template [{{=}}] of the web2py stencil is the
    case of the pattern [=\s*]. *)
Theorem consumed_directive_raises_IndexError :
  (forall chk stencil text c s,
      is_empty (strip text) = false ->
      Compiler.find_sub (subs stencil) (strip text)
      = Some (s, String.length (strip text)) ->
      Compiler.process_substitution chk stencil text c
      = Raises IndexError
          (set_out (out c ++ [Compiler.statement stencil (level c)
                                (sub_func s (strip text) "")])
             (set_column
                (column c + Z.of_nat (String.length (strip text))) c)))
  /\ (forall repr chk o,
         StencilBase.parse repr chk Web2pyStencil.init "{{=}}" o
         = Raises IndexError
             (mkCompiler "" 3 1 0 "" "{{=}}"
                (o ++ ["sys.stdout.write(str())" ++ nl]))).
Proof.
  split.
  - intros chk stencil text c s Hne Hs.
    rewrite process_substitution_eq, Hne.
    rewrite (dispatch_handler _ _ _ _ _ Hs).
    rewrite take_length, drop_length. apply validate_empty.
  - intros repr chk o. reflexivity.
Qed.

Lemma consumed_directive_raises_IndexError_witness :
  Compiler.process_substitution accept_all
    (Web2pyStencil.init [] "<string>") " = " (Compiler_init [])
  = Raises IndexError
      (mkCompiler "" 1 0 0 "" "" ["sys.stdout.write(str())" ++ nl]).
Proof.
  apply (proj1 consumed_directive_raises_IndexError accept_all
           (Web2pyStencil.init [] "<string>") " = " (Compiler_init [])
           (mkSub StencilBase.match_equal_sign
                  (StencilBase.on_equal_sign StencilBase.default_writer)));
    reflexivity.
Defined.






(** C2, as the code has it.  When no pattern matches, a directive that
    ends with a colon leaves the level one above the level its statement
    was written at.  When a handler matched, the level is left as it was,
    whatever the text ends with. *)
Theorem colon_increments_level_of_passthrough :
  forall chk stencil text c c',
    is_empty (strip text) = false ->
    Compiler.process_substitution chk stencil text c = Returns tt c' ->
    (Compiler.find_sub (subs stencil) (strip text) = None ->
     last_char (strip text) = Some ":"%char ->
     let lvl := if dedent stencil (strip text)
                   || Compiler.continuation (strip text)
                then level c - 1 else level c in
     level c' = lvl + 1 /\
     out c' = if dedent stencil (strip text) then out c
              else (out c ++ [Compiler.statement stencil lvl (strip text)])%list)
    /\ (forall s e,
           Compiler.find_sub (subs stencil) (strip text) = Some (s, e) ->
           level c' = level c /\
           out c' = (out c ++
                     [Compiler.statement stencil (level c)
                        (sub_func s (take e (strip text))
                                  (drop e (strip text)))])%list).
Proof.
  intros chk stencil text c c' Hne R.
  rewrite process_substitution_eq, Hne in R. split.
  - intros Hs L lvl.
    rewrite (dispatch_passthrough _ _ _ _ Hs L) in R. cbv zeta in R.
    fold lvl in R.
    destruct (_ && (lvl <? 0)); [discriminate R|].
    pose proof (validate_state chk stencil (strip text)
                  (set_level (if Ascii.eqb ":" ":" then lvl + 1 else lvl)
                     (set_out (if dedent stencil (strip text) then out c
                               else out c ++
                                    [Compiler.statement stencil lvl
                                       (strip text)]) c))) as V.
    rewrite R in V. simpl in V. subst c'. simpl. auto.
  - intros s e Hs.
    rewrite (dispatch_handler _ _ _ _ _ Hs) in R.
    match type of R with
    | Compiler.validate _ _ ?t ?c1 = _ =>
        pose proof (validate_state chk stencil t c1) as V
    end.
    rewrite R in V. simpl in V. subst c'. simpl. auto.
Qed.

Lemma colon_increments_level_of_passthrough_witness :
  level (mkCompiler "" 0 0 1 "" "" ["if x:" ++ nl]) = 0 + 1.
Proof.
  apply (proj1 (colon_increments_level_of_passthrough accept_all
                  (Web2pyStencil.init [] "<string>") "if x:"
                  (Compiler_init [])
                  (mkCompiler "" 0 0 1 "" "" ["if x:" ++ nl])
                  eq_refl eq_refl) eq_refl eq_refl).
Defined.

(** C2 fails as stated on the handler path: the directive [extend if x:]
    ends with a colon, as do the remainder [if x:] and the statement the
    handler returns, and the check accepts it; the level stays 0 and the
    literal that follows is written at level 0. *)
Lemma handler_directive_keeps_level :
  StencilBase.parse repr_plain accept_all Web2pyStencil.init
    "{{extend if x:}}y" []
  = Returns tt
      (mkCompiler "" 23 1 0 "y" "{{extend if x:}}y"
         ["#Extending if x:" ++ nl; "sys.stdout.write('y')" ++ nl]).
Proof. reflexivity. Qed.

(** C3, as the code has it.  A turn of the loop that finds no delimiter in
    a non-empty buffer moves the whole buffer to the multi-line buffer.
    When the end of the input is reached with a non-empty multi-line
    buffer, compilation raises [SyntaxError('Unclosed substitution')] in
    directive mode, and in literal mode writes the buffer as a literal and
    returns. *)
Theorem end_of_input_with_buffer :
  (forall repr chk (stencil : Stencil) fuel (insub : bool) (c : Compiler),
      is_empty (line c) = false ->
      ~ occurs (if insub then closer stencil else opener stencil) (line c) ->
      Compiler.while_line repr chk stencil (S fuel) insub c
      = Returns insub (set_multiline (multiline c ++ line c) (set_line "" c)))
  /\ (forall repr chk stencil c insub c1,
         Compiler.scan_lines repr chk stencil 1 (file stencil) false c
         = Returns insub c1 ->
         is_empty (multiline c1) = false ->
         Compiler.compile repr chk stencil c
         = if insub
           then Raises (SyntaxError "Unclosed substitution"
                          (mkPosition (filename stencil) (linenumber c1)
                                      (column c1) (currentline c1))) c1
           else Returns tt
                  (set_out (out c1 ++
                            [Compiler.statement stencil (level c1)
                               (Compiler.literal repr stencil (multiline c1))])
                     c1)).
Proof.
  split.
  - intros repr chk stencil fuel insub c Hl Ho.
    apply while_line_not_found; [now apply is_empty_false | exact Ho].
  - intros repr chk stencil c insub c1 R Hm.
    unfold Compiler.compile, bind. rewrite R.
    unfold Compiler.finish, Compiler.raise_syntax_error,
      Compiler.syntax_state, Compiler.print, when, bind, get, raise, modify.
    rewrite Hm. destruct insub; simpl; rewrite ?Z.add_0_r; reflexivity.
Qed.

Lemma end_of_input_with_buffer_witness :
  StencilBase.parse repr_plain accept_all Web2pyStencil.init "abc{{def" []
  = Raises (SyntaxError "Unclosed substitution"
              (mkPosition "<string>" 1 5 "abc{{def"))
      (mkCompiler "" 5 1 0 "def" "abc{{def" ["sys.stdout.write('abc')" ++ nl]).
Proof.
  apply (proj2 end_of_input_with_buffer repr_plain accept_all
           (Web2pyStencil.init ["abc{{def"] "<string>") (Compiler_init [])
           true
           (mkCompiler "" 5 1 0 "def" "abc{{def"
              ["sys.stdout.write('abc')" ++ nl]));
    reflexivity.
Defined.

(** C3 fails as stated: the template [abc] reaches the end of the input in
    literal mode with the non-empty buffer [abc], and compilation returns
    with the literal written. *)
Lemma literal_buffer_is_no_error :
  StencilBase.parse repr_plain accept_all Web2pyStencil.init "abc" []
  = Returns tt
      (mkCompiler "" 0 1 0 "abc" "abc" ["sys.stdout.write('abc')" ++ nl]).
Proof. reflexivity. Qed.

(** C4. With a host parser that accepts the fragments [if true:] (with its
    stub) and [pass], the web2py stencil compiles
    [123{{if true:}}456{{pass}}] to three statements: the literal [123] at
    level 0, [if true:] at level 0, the literal [456] at level 1; the
    level is 1 after the first directive and 0 at the end, and [pass]
    writes nothing. *)
Theorem scenario_block_and_dedent :
  forall repr chk o,
    chk ("if true:" ++ nl ++ tab ++ "pass") "<string>" = None ->
    chk "pass" "<string>" = None ->
    StencilBase.parse repr chk Web2pyStencil.init
      "123{{if true:}}456{{pass}}" o
    = Returns tt
        (mkCompiler "" 26 1 0 "" "123{{if true:}}456{{pass}}"
           (o ++ [("sys.stdout.write(" ++ repr "123" ++ ")") ++ nl;
                  "if true:" ++ nl;
                  tab ++ ("sys.stdout.write(" ++ repr "456" ++ ")") ++ nl]))
    /\ StencilBase.parse repr chk Web2pyStencil.init "123{{if true:}}" o
       = Returns tt
           (mkCompiler "" 15 1 1 "" "123{{if true:}}"
              (o ++ [("sys.stdout.write(" ++ repr "123" ++ ")") ++ nl;
                     "if true:" ++ nl])).
Proof.
  intros repr chk o H1 H2.
  pose (known := fun source fname : string =>
          (String.eqb source ("if true:" ++ nl ++ tab ++ "pass")
           || String.eqb source "pass")
          && String.eqb fname "<string>").
  pose (chk' := fun source fname =>
          if known source fname then None else chk source fname).
  assert (E : forall source fname, chk source fname = chk' source fname).
  { intros source fname. unfold chk', known.
    destruct (String.eqb_spec fname "<string>") as [->|];
      [|now rewrite andb_false_r].
    destruct (String.eqb_spec source ("if true:" ++ nl ++ tab ++ "pass"))
      as [->|]; [exact H1|].
    destruct (String.eqb_spec source "pass") as [->|]; [exact H2|].
    reflexivity. }
  rewrite (parse_frame repr chk _ "123{{if true:}}456{{pass}}" o),
    (parse_frame repr chk _ "123{{if true:}}" o).
  unfold StencilBase.parse, StencilBase.compile.
  rewrite !(compile_ext repr chk chk' _ E).
  split; vm_compute; reflexivity.
Qed.

Lemma scenario_block_and_dedent_witness :
  StencilBase.parse repr_plain accept_all Web2pyStencil.init
    "123{{if true:}}456{{pass}}" []
  = Returns tt
      (mkCompiler "" 26 1 0 "" "123{{if true:}}456{{pass}}"
         ["sys.stdout.write('123')" ++ nl;
          "if true:" ++ nl;
          tab ++ "sys.stdout.write('456')" ++ nl]).
Proof.
  apply (proj1 (scenario_block_and_dedent repr_plain accept_all []
                  eq_refl eq_refl)).
Defined.




(** The case the end-of-input test misses: the template [abc{{] ends
    inside a directive span with an empty buffer, and compilation returns
    with the literal written and no exception. *)
Lemma unclosed_empty_span_returns :
  forall repr chk o,
    StencilBase.parse repr chk Web2pyStencil.init "abc{{" o
    = Returns tt
        (mkCompiler "" 5 1 0 "" "abc{{"
           (o ++ [("sys.stdout.write(" ++ repr "abc" ++ ")") ++ nl])).
Proof. intros repr chk o. reflexivity. Qed.

(** C7, for a template that is not empty.  When the opener does not occur
    in the text of the template, compilation returns and what it wrote is
    the one statement [writer(repr(text))], at level 0. *)
Theorem literal_template_one_statement :
  forall repr chk stencil data o,
    file stencil = StringIO data ->
    data <> "" ->
    ~ occurs (opener stencil) data ->
    exists c',
      StencilBase.compile repr chk stencil o = Returns tt c' /\
      out c' = (o ++ [Compiler.statement stencil 0
                        (writer stencil ++ "(" ++ repr data ++ ")")])%list /\
      level c' = 0.
Proof.
  intros repr chk stencil data o Hf Hd Ho.
  unfold StencilBase.compile, Compiler.compile, bind.
  destruct (scan_lines_literal repr chk stencil (file stencil) 1
              (Compiler_init o)) as (c1 & R & Hm & Hl & Hout).
  { rewrite Hf, join_StringIO. exact Ho. }
  rewrite R. rewrite Hf, join_StringIO in Hm. simpl in Hm, Hl, Hout.
  unfold Compiler.finish, Compiler.print, when, bind, get, modify.
  rewrite Hm. apply is_empty_false in Hd. rewrite Hd. simpl.
  eexists. split; [reflexivity|]. simpl. rewrite Hl, Hout. auto.
Qed.

Lemma literal_template_one_statement_witness :
  exists c',
    StencilBase.compile repr_plain accept_all
      (Web2pyStencil.init (StringIO "abc") "<string>") [] = Returns tt c' /\
    out c' = ["sys.stdout.write('abc')" ++ nl] /\
    level c' = 0.
Proof.
  apply (literal_template_one_statement repr_plain accept_all
           (Web2pyStencil.init (StringIO "abc") "<string>") "abc" []).
  - reflexivity.
  - discriminate.
  - intro H. apply occurs_partition in H. destruct H as (t & r & H).
    discriminate H.
Defined.

(** C7 fails as stated on the empty template: neither delimiter occurs in
    it, and compilation writes no statement. *)
Lemma empty_template_no_statement :
  ~ occurs "{{" "" /\ ~ occurs "}}" "" /\
  StencilBase.parse repr_plain accept_all Web2pyStencil.init "" []
  = Returns tt (Compiler_init []).
Proof.
  repeat split.
  - intros (a & b & H). destruct a; discriminate H.
  - intros (a & b & H). destruct a; discriminate H.
Qed.



(** C9.  Compilation is a function of the stencil and the template: two
    compilations of the same text, on sinks that hold whatever they hold,
    write the same chunks after it and end the same way, with the same
    exception if any. *)
Theorem compilation_is_deterministic :
  forall repr chk cls data o1 o2,
  exists emitted,
    out (state_of (StencilBase.parse repr chk cls data o1))
    = (o1 ++ emitted)%list /\
    out (state_of (StencilBase.parse repr chk cls data o2))
    = (o2 ++ emitted)%list /\
    raised (StencilBase.parse repr chk cls data o1)
    = raised (StencilBase.parse repr chk cls data o2).
Proof.
  intros repr chk cls data o1 o2.
  exists (out (state_of (StencilBase.parse repr chk cls data []))).
  rewrite (parse_frame repr chk cls data o1), (parse_frame repr chk cls data o2).
  destruct (StencilBase.parse repr chk cls data []) as [[] c|e c];
    simpl; auto.
Qed.

(** ** The output depends on the text, not on its lines *)

Section StringFactsAppend.

Lemma prefix_length (d s : string) :
  String.prefix d s = true -> (String.length d <= String.length s)%nat.
Proof.
  intro H. pose proof (f_equal String.length (prefix_split _ _ H)) as E.
  rewrite length_append in E. lia.
Qed.

Lemma prefix_app_true (d s b : string) :
  String.prefix d s = true -> String.prefix d (s ++ b) = true.
Proof.
  intro H. rewrite (prefix_split _ _ H). rewrite append_assoc.
  apply prefix_append.
Qed.

Lemma prefix_app_false (d s b : string) :
  String.prefix d s = false ->
  (String.length d <= String.length s)%nat ->
  String.prefix d (s ++ b) = false.
Proof.
  revert s. induction d as [|a d IH]; intros s H L.
  - destruct s; discriminate H.
  - destruct s as [|x s]; [simpl in L; lia|].
    simpl in *. destruct (ascii_dec a x); [|reflexivity].
    apply IH; [exact H | lia].
Qed.

Lemma drop_app (n : nat) (s b : string) :
  (n <= String.length s)%nat -> drop n (s ++ b) = drop n s ++ b.
Proof.
  revert s. induction n as [|n IH]; intros s L; [reflexivity|].
  destruct s as [|x s]; [simpl in L; lia|].
  simpl. apply IH. simpl in L. lia.
Qed.

(** A delimiter found in a text is found at the same place when the text
    goes on. *)
Lemma partition_app_found (d s b t r : string) :
  partition d s = (t, true, r) ->
  partition d (s ++ b) = (t, true, r ++ b).
Proof.
  revert t. induction s as [|ch s IH]; intros t; rewrite partition_eq.
  - destruct (String.prefix d "") eqn:E; [|discriminate].
    intro H. inversion H; subst. rewrite partition_eq.
    rewrite (prefix_app_true _ _ b E).
    rewrite drop_app by (now apply prefix_length). reflexivity.
  - destruct (String.prefix d (String ch s)) eqn:E.
    + intro H. inversion H; subst. rewrite partition_eq.
      rewrite (prefix_app_true _ _ b E).
      rewrite drop_app by (now apply prefix_length). reflexivity.
    + destruct (partition d s) as [[t' f'] r'] eqn:P.
      intro H. inversion H; subst.
      rewrite partition_eq.
      rewrite prefix_app_false; [|exact E|].
      * cbn [append]. rewrite (IH t' eq_refl). reflexivity.
      * apply partition_found in P. subst s.
        simpl. rewrite !length_append. lia.
Qed.

End StringFactsAppend.

Lemma partition_not_found_rest (d s t r : string) :
  partition d s = (t, false, r) -> r = "" /\ t = s.
Proof.
  revert t. induction s as [|ch s IH]; intros t; rewrite partition_eq.
  - destruct (String.prefix d ""); intro H; inversion H; auto.
  - destruct (String.prefix d (String ch s)); [discriminate|].
    destruct (partition d s) as [[t' f'] r'] eqn:P.
    intro H. inversion H; subst.
    destruct (IH t' eq_refl) as [-> ->]. auto.
Qed.

Section TextOnly.

Variable repr : string -> string.
Variable chk : string -> string -> option (string * Z).
Variable stencil : Stencil.

Local Abbreviation emit_span := (Compiler.emit_span repr chk stencil).
Local Abbreviation while_line := (Compiler.while_line repr chk stencil).
Local Abbreviation scan_line := (Compiler.scan_line repr chk stencil).
Local Abbreviation scan_lines := (Compiler.scan_lines repr chk stencil).
Local Abbreviation finish := (Compiler.finish repr stencil).

(** A span writes and returns the same from two compilers that agree on
    the level, the buffer and the sink. *)
Lemma emit_span_text (insub : bool) (text : string) (c1 c2 : Compiler) :
  level c1 = level c2 -> multiline c1 = multiline c2 -> out c1 = out c2 ->
  text_view (emit_span insub text c1) = text_view (emit_span insub text c2).
Proof.
  intros Hl Hm Ho. unfold_compiler. destruct c1, c2; simpl in *; subst.
  break_match; simpl; try reflexivity; try congruence.
Qed.

Lemma while_line_text (fuel : nat) (insub : bool) (c1 c2 : Compiler) :
  line c1 = line c2 -> level c1 = level c2 ->
  multiline c1 = multiline c2 -> out c1 = out c2 ->
  text_view (while_line fuel insub c1) = text_view (while_line fuel insub c2).
Proof.
  revert insub c1 c2.
  induction fuel as [|fuel IH]; intros insub c1 c2 Hline Hl Hm Ho.
  - simpl. unfold ret. simpl. congruence.
  - rewrite !while_line_S. cbv zeta. rewrite Hline.
    destruct (is_empty (line c2)); [simpl; congruence|].
    destruct (is_empty (if insub then closer stencil else opener stencil));
      [simpl; congruence|].
    destruct (partition _ (line c2)) as [[text found] rest].
    destruct found; simpl; [|congruence].
    pose proof (emit_span_text insub text (set_line rest c1)
                  (set_line rest c2) Hl Hm Ho) as V.
    pose proof (emit_span_fields repr chk stencil insub text
                  (set_line rest c1)) as (F1 & _).
    pose proof (emit_span_fields repr chk stencil insub text
                  (set_line rest c2)) as (F2 & _).
    destruct (emit_span insub text (set_line rest c1)) as [[] d1|e1 d1];
      destruct (emit_span insub text (set_line rest c2)) as [[] d2|e2 d2];
      simpl in V, F1, F2; inversion V; simpl; try congruence.
    apply IH; simpl; congruence.
Qed.


(** Reading a buffer in two parts, the second after what the first left
    in the multi-line buffer, is reading it in one. *)
Lemma while_line_carry (f1 : nat) :
  forall (insub : bool) (cA cB : Compiler) (b : string) (f2 : nat),
    multiline cA = "" -> multiline cB = "" ->
    line cB = line cA ++ b ->
    level cA = level cB -> out cA = out cB ->
    (String.length (line cA) <= f1)%nat ->
    (String.length (line cB) <= f2)%nat ->
    match while_line f1 insub cA with
    | Raises e c1 =>
        text_view (while_line f2 insub cB) = text_view (Raises (A:=bool) e c1)
    | Returns i c1 =>
        forall (f3 : nat) (cN : Compiler),
          line cN = multiline c1 ++ b -> multiline cN = "" ->
          level cN = level c1 -> out cN = out c1 ->
          (String.length (line cN) <= f3)%nat ->
          text_view (while_line f3 i cN) = text_view (while_line f2 insub cB)
    end.
Proof.
  induction f1 as [|f1 IH]; intros insub cA cB b f2 HmA HmB Hline Hl Ho L1 L2.
  - apply length_zero in L1. simpl. unfold ret.
    intros f3 cN HN HmN HlN HoN L3.
    rewrite HmA in HN. simpl in HN.
    rewrite (while_line_fuel repr chk stencil f3 (Nat.max f3 f2) _ cN)
      by lia.
    rewrite (while_line_fuel repr chk stencil f2 (Nat.max f3 f2) _ cB)
      by lia.
    apply while_line_text; try congruence.
    rewrite Hline, L1. exact HN.
  - rewrite while_line_S. cbv zeta.
    destruct (is_empty (line cA)) eqn:EA.
    + apply is_empty_true in EA.
      intros f3 cN HN HmN HlN HoN L3.
      rewrite HmA in HN. simpl in HN.
      rewrite (while_line_fuel repr chk stencil f3 (Nat.max f3 f2) _ cN)
        by lia.
      rewrite (while_line_fuel repr chk stencil f2 (Nat.max f3 f2) _ cB)
        by lia.
      apply while_line_text; try congruence.
      rewrite Hline, EA. exact HN.
    + assert (EB : is_empty (line cB) = false).
      { rewrite Hline. destruct (line cA); [discriminate EA | reflexivity]. }
      assert (F2 : exists f2', f2 = S f2').
      { destruct f2 as [|f2']; [|now exists f2'].
        apply length_zero in L2. rewrite L2 in EB. discriminate EB. }
      destruct F2 as (f2' & ->).
      destruct (is_empty (if insub then closer stencil else opener stencil))
        eqn:D.
      * rewrite while_line_S. cbv zeta. rewrite EB, D. simpl.
        rewrite Hl, HmB, HmA, Ho. reflexivity.
      * destruct (partition _ (line cA)) as [[text found] rest] eqn:P.
        destruct found; cbv beta iota delta [negb].
        -- pose proof (partition_app_found _ _ b _ _ P) as PB.
           rewrite <- Hline in PB.
           pose proof (partition_shorter _ _ _ _
                         (proj1 (is_empty_false _) D) P) as SA.
           pose proof (partition_shorter _ _ _ _
                         (proj1 (is_empty_false _) D) PB) as SB.
           pose proof (emit_span_text insub text (set_line rest cA)
                         (set_line (rest ++ b) cB)) as V.
           simpl in V. specialize (V Hl (eq_trans HmA (eq_sym HmB)) Ho).
           pose proof (emit_span_fields repr chk stencil insub text
                         (set_line rest cA)) as (FlA & FmA & _).
           pose proof (emit_span_fields repr chk stencil insub text
                         (set_line (rest ++ b) cB)) as (FlB & FmB & _).
           rewrite (while_line_S repr chk stencil f2' insub cB).
           cbv zeta. rewrite EB, D, PB. cbv beta iota delta [negb].
           destruct (emit_span insub text (set_line rest cA))
             as [[] dA|eA dA];
             destruct (emit_span insub text (set_line (rest ++ b) cB))
               as [[] dB|eB dB];
             simpl in V, FlA, FmA, FlB, FmB; inversion V.
           ++ specialize (IH (negb insub)
                (set_column (column dA + Z.of_nat (String.length text)
                   + Z.of_nat (String.length
                        (if insub then closer stencil else opener stencil)))
                   dA)
                (set_column (column dB + Z.of_nat (String.length text)
                   + Z.of_nat (String.length
                        (if insub then closer stencil else opener stencil)))
                   dB) b f2').
              simpl in IH. apply IH; try congruence;
                rewrite ?FlA, ?FlB; lia.
           ++ simpl. congruence.
        -- intros f3 cN HN HmN HlN HoN L3.
           apply partition_not_found_rest in P. destruct P as (-> & ->).
           simpl in HN, HlN, HoN. rewrite HmA in HN. simpl in HN.
           rewrite (while_line_fuel repr chk stencil f3
                      (Nat.max f3 (S f2')) _ cN) by lia.
           rewrite (while_line_fuel repr chk stencil (S f2')
                      (Nat.max f3 (S f2')) _ cB) by lia.
           apply while_line_text; congruence.
Qed.


Lemma scan_line_eq (n : Z) (l : string) (insub : bool) (c : Compiler) :
  scan_line n l insub c =
  while_line (String.length (multiline c ++ l)) insub
    (mkCompiler (multiline c ++ l) 0 n (level c) "" l (out c)).
Proof. reflexivity. Qed.

Lemma scan_lines_text (lines : list string) :
  forall (n n' : Z) (insub : bool) (c c' : Compiler),
    level c = level c' -> multiline c = multiline c' -> out c = out c' ->
    text_view (scan_lines n lines insub c)
    = text_view (scan_lines n' lines insub c').
Proof.
  induction lines as [|l lines IH]; intros n n' insub c c' Hl Hm Ho.
  - simpl. unfold ret. simpl. congruence.
  - cbn [Compiler.scan_lines]. unfold bind. rewrite !scan_line_eq.
    rewrite <- Hm.
    pose proof (while_line_text (String.length (multiline c ++ l)) insub
                  (mkCompiler (multiline c ++ l) 0 n (level c) "" l (out c))
                  (mkCompiler (multiline c ++ l) 0 n' (level c') "" l
                     (out c'))
                  eq_refl Hl eq_refl Ho) as V.
    destruct (while_line _ insub (mkCompiler _ 0 n _ _ _ _)) as [i d|e d];
      destruct (while_line _ insub (mkCompiler _ 0 n' _ _ _ _))
        as [i' d'|e' d'];
      simpl in V; inversion V; subst; simpl; try congruence.
    apply IH; assumption.
Qed.

(** Two lines read one after the other are read as their concatenation. *)
Lemma scan_lines_merge (rest : list string) (l1 l2 : string) :
  forall (n n' : Z) (insub : bool) (c c' : Compiler),
    level c = level c' -> multiline c = multiline c' -> out c = out c' ->
    text_view (scan_lines n (l1 :: l2 :: rest) insub c)
    = text_view (scan_lines n' ((l1 ++ l2) :: rest) insub c').
Proof.
  intros n n' insub c c' Hl Hm Ho.
  cbn [Compiler.scan_lines]. unfold bind. rewrite !scan_line_eq.
  pose proof (while_line_carry (String.length (multiline c ++ l1)) insub
                (mkCompiler (multiline c ++ l1) 0 n (level c) "" l1 (out c))
                (mkCompiler (multiline c' ++ l1 ++ l2) 0 n' (level c') ""
                   (l1 ++ l2) (out c'))
                l2 (String.length (multiline c' ++ l1 ++ l2))) as K.
  simpl in K. rewrite <- Hm, <- append_assoc in K.
  specialize (K eq_refl eq_refl eq_refl Hl Ho (le_n _) (le_n _)).
  rewrite <- Hm, <- append_assoc.
  destruct (while_line _ insub (mkCompiler (multiline c ++ l1) _ _ _ _ _ _))
    as [i d|e d].
  - rewrite scan_line_eq.
    specialize (K (String.length (multiline d ++ l2))
                  (mkCompiler (multiline d ++ l2) 0 (n + 1) (level d) "" l2
                     (out d))
                  eq_refl eq_refl eq_refl eq_refl (le_n _)).
    destruct (while_line _ i (mkCompiler (multiline d ++ l2) _ _ _ _ _ _))
      as [j x|ex x];
      destruct (while_line _ insub
                  (mkCompiler ((multiline c ++ l1) ++ l2) _ _ _ _ _ _))
        as [j' y|ey y];
      simpl in K; inversion K; subst; simpl; try congruence.
    apply scan_lines_text; assumption.
  - destruct (while_line _ insub
                (mkCompiler ((multiline c ++ l1) ++ l2) _ _ _ _ _ _))
      as [j' y|ey y];
      simpl in K; inversion K; subst; simpl; congruence.
Qed.

Lemma scan_lines_join (rest : list string) :
  forall (l : string) (n n' : Z) (insub : bool) (c c' : Compiler),
    level c = level c' -> multiline c = multiline c' -> out c = out c' ->
    text_view (scan_lines n (l :: rest) insub c)
    = text_view (scan_lines n' [l ++ join rest] insub c').
Proof.
  induction rest as [|l2 rest IH]; intros l n n' insub c c' Hl Hm Ho.
  - simpl join. rewrite append_nil_r. now apply scan_lines_text.
  - rewrite (scan_lines_merge rest l l2 n n insub c c eq_refl eq_refl eq_refl).
    rewrite (IH (l ++ l2) n n' insub c c' Hl Hm Ho).
    simpl join. now rewrite append_assoc.
Qed.

(** From a fresh compiler, a file is read as the one line of its text. *)
Lemma scan_file_join (f : list string) (o : list string) :
  text_view (scan_lines 1 f false (Compiler_init o))
  = text_view (scan_lines 1 [join f] false (Compiler_init o)).
Proof.
  destruct f as [|l rest]; [reflexivity|].
  now apply scan_lines_join.
Qed.

Lemma finish_text (insub : bool) (c c' : Compiler) :
  level c = level c' -> multiline c = multiline c' -> out c = out c' ->
  text_view (finish insub c) = text_view (finish insub c').
Proof.
  intros Hl Hm Ho.
  unfold Compiler.finish, Compiler.raise_syntax_error, Compiler.print,
    when, bind, get, modify, raise, ret.
  rewrite Hm. destruct (is_empty (multiline c')); simpl; [congruence|].
  destruct insub; simpl; congruence.
Qed.

End TextOnly.

Lemma compile_with_file repr chk (f : list string) (st : Stencil)
      (c : Compiler) :
  Compiler.compile repr chk (with_file f st) c
  = bind (Compiler.scan_lines repr chk st 1 f false)
         (Compiler.finish repr st) c.
Proof. destruct st. reflexivity. Qed.

(** X1. The statements written, the nesting level left and the exception
    raised, its position aside, depend on the text of the template only,
    not on how the file cuts it into lines: a directive or a literal that
    runs over several physical lines is compiled as on one line. *)
Theorem output_depends_on_text_only :
  forall repr chk st (f1 f2 : list string) (o : list string),
    join f1 = join f2 ->
    text_view (StencilBase.compile repr chk (with_file f1 st) o)
    = text_view (StencilBase.compile repr chk (with_file f2 st) o).
Proof.
  intros repr chk st f1 f2 o J.
  unfold StencilBase.compile. rewrite !compile_with_file.
  assert (K : forall f,
             text_view (bind (Compiler.scan_lines repr chk st 1 f false)
                             (Compiler.finish repr st) (Compiler_init o))
             = text_view (bind (Compiler.scan_lines repr chk st 1 [join f]
                                  false)
                               (Compiler.finish repr st) (Compiler_init o))).
  { intro f. unfold bind.
    pose proof (scan_file_join repr chk st f o) as V.
    destruct (Compiler.scan_lines repr chk st 1 f false (Compiler_init o))
      as [i d|e d];
      destruct (Compiler.scan_lines repr chk st 1 [join f] false
                  (Compiler_init o)) as [i' d'|e' d'];
      simpl in V; inversion V; subst; simpl; try congruence.
    apply finish_text; assumption. }
  rewrite (K f1), (K f2), J. reflexivity.
Qed.

Lemma output_depends_on_text_only_witness :
  text_view (StencilBase.compile repr_plain accept_all
               (with_file ["a{{if x:" ++ nl; "}}b"]
                  (Web2pyStencil.init [] "<string>")) [])
  = text_view (StencilBase.compile repr_plain accept_all
                 (with_file ["a{"; "{if x:" ++ nl ++ "}"; "}b"]
                    (Web2pyStencil.init [] "<string>")) []).
Proof.
  apply (output_depends_on_text_only repr_plain accept_all
           (Web2pyStencil.init [] "<string>")
           ["a{{if x:" ++ nl; "}}b"] ["a{"; "{if x:" ++ nl ++ "}"; "}b"] []).
  reflexivity.
Defined.

(** ** The nesting level *)

Lemma process_substitution_level_bounds chk st (text : string)
      (c c' : Compiler) :
  0 <= level c ->
  Compiler.process_substitution chk st text c = Returns tt c' ->
  0 <= level c' /\ level c - 1 <= level c' <= level c + 1.
Proof.
  intros H0 R. rewrite process_substitution_eq in R.
  destruct (is_empty (strip text)) eqn:E.
  - inversion R; subst. lia.
  - destruct (Compiler.find_sub (subs st) (strip text)) as [[s e]|] eqn:F.
    + rewrite (dispatch_handler _ _ _ _ _ F) in R.
      match type of R with
      | Compiler.validate _ _ ?t ?c1 = _ =>
          pose proof (validate_state chk st t c1) as V
      end.
      rewrite R in V. simpl in V. subst c'. simpl. lia.
    + destruct (last_char_nonempty _ E) as (ch & L).
      rewrite (dispatch_passthrough _ _ _ _ F L) in R. cbv zeta in R.
      destruct (dedent st (strip text) || Compiler.continuation (strip text));
        simpl in R.
      * destruct (level c - 1 <? 0) eqn:U; [discriminate R|].
        apply Z.ltb_ge in U.
        match type of R with
        | Compiler.validate _ _ ?t ?c1 = _ =>
            pose proof (validate_state chk st t c1) as V
        end.
        rewrite R in V. simpl in V. subst c'. simpl.
        destruct (Ascii.eqb ch ":"); lia.
      * match type of R with
        | Compiler.validate _ _ ?t ?c1 = _ =>
            pose proof (validate_state chk st t c1) as V
        end.
        rewrite R in V. simpl in V. subst c'. simpl.
        destruct (Ascii.eqb ch ":"); lia.
Qed.

Section LevelInvariant.

Variable repr : string -> string.
Variable chk : string -> string -> option (string * Z).
Variable stencil : Stencil.

Lemma emit_span_nonneg (insub : bool) (text : string) (c c' : Compiler) :
  0 <= level c ->
  Compiler.emit_span repr chk stencil insub text c = Returns tt c' ->
  0 <= level c'.
Proof.
  intros H0 R. destruct insub.
  - now apply (process_substitution_level_bounds chk stencil text c c').
  - pose proof (literal_span_level repr chk stencil text c) as V.
    rewrite R in V. simpl in V. inversion V. lia.
Qed.

Lemma while_line_nonneg (fuel : nat) :
  forall (insub b : bool) (c c' : Compiler),
    0 <= level c ->
    Compiler.while_line repr chk stencil fuel insub c = Returns b c' ->
    0 <= level c'.
Proof.
  induction fuel as [|fuel IH]; intros insub b c c' H0 R.
  - inversion R; subst. exact H0.
  - rewrite while_line_S in R. cbv zeta in R.
    destruct (is_empty (line c)); [inversion R; subst; exact H0|].
    destruct (is_empty (if insub then closer stencil else opener stencil));
      [discriminate R|].
    destruct (partition _ (line c)) as [[text found] rest].
    destruct found; cbv beta iota delta [negb] in R;
      [|inversion R; subst; exact H0].
    destruct (Compiler.emit_span repr chk stencil insub text
                (set_line rest c)) as [[] d|e d] eqn:S; [|discriminate R].
    apply emit_span_nonneg in S; [|exact H0].
    apply (IH _ _ _ _ (S : 0 <= level (set_column _ d)) R).
Qed.

Lemma scan_lines_nonneg (lines : list string) :
  forall (n : Z) (insub b : bool) (c c' : Compiler),
    0 <= level c ->
    Compiler.scan_lines repr chk stencil n lines insub c = Returns b c' ->
    0 <= level c'.
Proof.
  induction lines as [|l lines IH]; intros n insub b c c' H0 R.
  - inversion R; subst. exact H0.
  - cbn [Compiler.scan_lines] in R. unfold bind in R.
    destruct (Compiler.scan_line repr chk stencil n l insub c)
      as [i d|e d] eqn:S; [|discriminate R].
    rewrite scan_line_eq in S.
    apply while_line_nonneg in S; [|exact H0].
    apply (IH _ _ _ _ _ S R).
Qed.

End LevelInvariant.

(** X2. A directive that returns moves the nesting level by one at most
    and never below zero; a compilation that returns leaves a level that
    is not negative. *)
Theorem level_stays_nonnegative :
  (forall chk st text c c',
      0 <= level c ->
      Compiler.process_substitution chk st text c = Returns tt c' ->
      0 <= level c' /\ level c - 1 <= level c' <= level c + 1)
  /\ (forall repr chk st o c',
         StencilBase.compile repr chk st o = Returns tt c' ->
         0 <= level c').
Proof.
  split; [exact process_substitution_level_bounds|].
  intros repr chk st o c' R.
  unfold StencilBase.compile, Compiler.compile, bind in R.
  destruct (Compiler.scan_lines repr chk st 1 (file st) false
              (Compiler_init o)) as [i d|e d] eqn:S; [|discriminate R].
  apply scan_lines_nonneg in S; [|simpl; lia].
  unfold Compiler.finish, Compiler.raise_syntax_error, Compiler.print,
    when, bind, get, modify, raise, ret in R.
  destruct (is_empty (multiline d)); simpl in R;
    [inversion R; subst; exact S|].
  destruct i; simpl in R; [discriminate R|].
  inversion R; subst. exact S.
Qed.

Lemma level_stays_nonnegative_witness :
  0 <= level (mkCompiler "" 0 0 1 "" "" ["else:" ++ nl])
  /\ 1 - 1 <= level (mkCompiler "" 0 0 1 "" "" ["else:" ++ nl]) <= 1 + 1.
Proof.
  apply (proj1 level_stays_nonnegative accept_all
           (Web2pyStencil.init [] "<string>") "else:"
           (mkCompiler "" 0 0 1 "" "" [])
           (mkCompiler "" 0 0 1 "" "" ["else:" ++ nl])).
  - simpl. lia.
  - reflexivity.
Defined.

(** ** The position of a diagnostic *)

Section Positions.

Variable repr : string -> string.
Variable chk : string -> string -> option (string * Z).
Variable stencil : Stencil.

Lemma emit_span_position (insub : bool) (text : string) (c c' : Compiler)
      (msg : string) (pos : Position) :
  Compiler.emit_span repr chk stencil insub text c
  = Raises (SyntaxError msg pos) c' ->
  pos_filename pos = filename stencil /\
  pos_lineno pos = linenumber c /\ pos_text pos = currentline c.
Proof.
  unfold_compiler. destruct c; simpl.
  break_match; intro H; inversion H; subst; simpl; auto.
Qed.

Lemma while_line_position (fuel : nat) :
  forall (insub : bool) (c c' : Compiler) (msg : string) (pos : Position),
    Compiler.while_line repr chk stencil fuel insub c
    = Raises (SyntaxError msg pos) c' ->
    pos_filename pos = filename stencil /\
    pos_lineno pos = linenumber c /\ pos_text pos = currentline c.
Proof.
  induction fuel as [|fuel IH]; intros insub c c' msg pos R;
    [discriminate R|].
  rewrite while_line_S in R. cbv zeta in R.
  destruct (is_empty (line c)); [discriminate R|].
  destruct (is_empty (if insub then closer stencil else opener stencil));
    [discriminate R|].
  destruct (partition _ (line c)) as [[text found] rest].
  destruct found; cbv beta iota delta [negb] in R; [|discriminate R].
  pose proof (emit_span_fields repr chk stencil insub text (set_line rest c))
    as (_ & _ & Fn & Fc).
  destruct (Compiler.emit_span repr chk stencil insub text
              (set_line rest c)) as [[] d|e d] eqn:S.
  - apply IH in R. simpl in *.
    destruct R as (Rf & Rn & Rt). repeat split; congruence.
  - inversion R; subst. apply emit_span_position in S. exact S.
Qed.

Lemma scan_lines_raise_position (lines : list string) :
  forall (n : Z) (insub : bool) (c c' : Compiler) (msg : string)
         (pos : Position),
    Compiler.scan_lines repr chk stencil n lines insub c
    = Raises (SyntaxError msg pos) c' ->
    pos_filename pos = filename stencil /\
    exists k, (k < List.length lines)%nat /\
              pos_lineno pos = n + Z.of_nat k /\
              pos_text pos = nth k lines "".
Proof.
  induction lines as [|l lines IH]; intros n insub c c' msg pos R;
    [discriminate R|].
  cbn [Compiler.scan_lines] in R. unfold bind in R.
  destruct (Compiler.scan_line repr chk stencil n l insub c)
    as [i d|e d] eqn:S.
  - apply IH in R. destruct R as (Rf & k & Hk & Hn & Ht).
    split; [exact Rf|]. exists (Datatypes.S k). simpl. repeat split;
      [lia | lia | exact Ht].
  - inversion R; subst. rewrite scan_line_eq in S.
    apply while_line_position in S. destruct S as (Sf & Sn & St).
    simpl in Sn, St. split; [exact Sf|]. exists 0%nat. simpl.
    repeat split; [lia | lia | exact St].
Qed.

End Positions.

Lemma last_is_nth (l : list string) :
  l <> [] -> last l "" = nth (List.length l - 1) l "".
Proof.
  induction l as [|x l IH]; intro H; [now elim H|].
  destruct l as [|y l]; [reflexivity|].
  change (last (x :: y :: l) "") with (last (y :: l) "").
  rewrite IH by discriminate. simpl. now rewrite Nat.sub_0_r.
Qed.

(** X3. Every [SyntaxError] that a compilation raises carries the file
    name of the stencil, the 1-based number of one of the lines of the
    file, and the text of that very line. *)
Theorem diagnostic_names_a_line_of_the_file :
  forall repr chk st o msg pos c',
    StencilBase.compile repr chk st o = Raises (SyntaxError msg pos) c' ->
    pos_filename pos = filename st /\
    exists k, (k < List.length (file st))%nat /\
              pos_lineno pos = Z.of_nat (S k) /\
              pos_text pos = nth k (file st) "".
Proof.
  intros repr chk st o msg pos c' R.
  unfold StencilBase.compile, Compiler.compile, bind in R.
  destruct (Compiler.scan_lines repr chk st 1 (file st) false
              (Compiler_init o)) as [i d|e d] eqn:S.
  - unfold Compiler.finish, Compiler.raise_syntax_error,
      Compiler.syntax_state, Compiler.print, when, bind, get, modify,
      raise, ret in R.
    destruct (is_empty (multiline d)) eqn:E; simpl in R; [discriminate R|].
    destruct i; simpl in R; [|discriminate R].
    inversion R; subst. simpl. split; [reflexivity|].
    destruct (file st) as [|l rest] eqn:F.
    + discriminate S.
    + destruct (scan_lines_position repr chk st _ _ _ _ _ _ S)
        as (Pn & Pc); [discriminate|].
      exists (List.length (l :: rest) - 1)%nat.
      rewrite Pn, Pc. repeat split.
      * simpl. lia.
      * cbn [List.length]. lia.
      * apply last_is_nth. discriminate.
  - inversion R; subst.
    destruct (scan_lines_raise_position repr chk st _ _ _ _ _ _ _ S)
      as (Sf & k & Hk & Hn & Ht).
    split; [exact Sf|]. exists k. repeat split; [exact Hk | lia | exact Ht].
Qed.

Lemma diagnostic_names_a_line_of_the_file_witness :
  pos_filename (mkPosition "t.erb" 2 10 "<%pass%><%pass%>") = "t.erb" /\
  exists k, (k < 2)%nat /\
            pos_lineno (mkPosition "t.erb" 2 10 "<%pass%><%pass%>")
            = Z.of_nat (S k) /\
            pos_text (mkPosition "t.erb" 2 10 "<%pass%><%pass%>")
            = nth k ["a<%if x:%>"; "<%pass%><%pass%>"] "".
Proof.
  apply (diagnostic_names_a_line_of_the_file repr_plain accept_all
           (ErbStencil.init ["a<%if x:%>"; "<%pass%><%pass%>"] "t.erb")
           [] "Got dedent outside of block"
           (mkPosition "t.erb" 2 10 "<%pass%><%pass%>")
           (mkCompiler "" 10 2 (-1) "" "<%pass%><%pass%>"
              ["sys.stdout.write('a')" ++ nl; "if x:" ++ nl])).
  reflexivity.
Defined.

(** ** Directives *)

Lemma lstrip_all_space (s : string) :
  span_space s = String.length s -> lstrip s = "".
Proof.
  induction s as [|ch s IH]; simpl; [reflexivity|].
  destruct (isspace ch); [|discriminate]. intro H. apply IH. lia.
Qed.

Lemma drop_span_space (s : string) : drop (span_space s) s = lstrip s.
Proof.
  induction s as [|ch s IH]; simpl; [reflexivity|].
  destruct (isspace ch); [exact IH | reflexivity].
Qed.

(** X4. A directive made of white space only, the empty one among them,
    writes nothing, checks nothing and leaves the compiler as it is,
    whatever the handlers and the dedent predicate of the stencil. *)
Theorem blank_directive_does_nothing :
  forall chk st text c,
    span_space text = String.length text ->
    Compiler.process_substitution chk st text c = Returns tt c.
Proof.
  intros chk st text c H. rewrite process_substitution_eq.
  unfold strip. rewrite (lstrip_all_space _ H). reflexivity.
Qed.

Lemma blank_directive_does_nothing_witness :
  Compiler.process_substitution reject_incomplete
    (Web2pyStencil.init [] "<string>") ("  " ++ tab ++ nl)
    (Compiler_init [])
  = Returns tt (Compiler_init []).
Proof.
  apply (blank_directive_does_nothing reject_incomplete
           (Web2pyStencil.init [] "<string>") ("  " ++ tab ++ nl)
           (Compiler_init [])).
  reflexivity.
Defined.

(** X5. A block opener followed by a dedent token: when no pattern
    matches either, the first ends with a colon and is neither a dedent
    token nor a continuation, the second is a dedent token that does not
    end with a colon, and the host parser accepts both, the two
    directives together write the opener alone, at the level they start
    from, and leave that level. *)
Theorem block_then_dedent_restores_level :
  forall chk st text1 text2 c ch,
    0 <= level c ->
    is_empty (strip text1) = false ->
    Compiler.find_sub (subs st) (strip text1) = None ->
    dedent st (strip text1) = false ->
    Compiler.continuation (strip text1) = false ->
    last_char (strip text1) = Some ":"%char ->
    chk (Compiler.add_stubs (strip text1)) (filename st) = None ->
    Compiler.find_sub (subs st) (strip text2) = None ->
    dedent st (strip text2) = true ->
    last_char (strip text2) = Some ch ->
    Ascii.eqb ch ":" = false ->
    chk (strip text2) (filename st) = None ->
    bind (Compiler.process_substitution chk st text1)
         (fun _ => Compiler.process_substitution chk st text2) c
    = Returns tt
        (set_out (out c ++ [Compiler.statement st (level c) (strip text1)])
           c).
Proof.
  intros chk st text1 text2 c ch H0 E1 F1 D1 C1 L1 K1 F2 D2 L2 N2 K2.
  unfold bind. rewrite process_substitution_eq, E1.
  rewrite (dispatch_passthrough _ _ _ _ F1 L1). cbv zeta.
  rewrite D1, C1. simpl orb. cbv iota. simpl andb. cbv iota.
  rewrite (validate_spec _ _ _ _ _ L1). simpl Ascii.eqb. cbv iota.
  rewrite K1.
  rewrite process_substitution_eq.
  assert (E2 : is_empty (strip text2) = false)
    by (destruct (strip text2); [discriminate L2 | reflexivity]).
  rewrite E2, (dispatch_passthrough _ _ _ _ F2 L2). cbv zeta.
  rewrite D2, N2. simpl orb. cbv iota. simpl level.
  assert (U : (level c + 1 - 1 <? 0) = false) by (apply Z.ltb_ge; lia).
  rewrite U. simpl andb. cbv iota.
  rewrite (validate_spec _ _ _ _ _ L2), N2, K2.
  destruct c; unfold set_level, set_out; simpl. do 2 f_equal. lia.
Qed.

Lemma block_then_dedent_restores_level_witness :
  bind (Compiler.process_substitution accept_all
          (Web2pyStencil.init [] "<string>") " for x in xs: ")
       (fun _ => Compiler.process_substitution accept_all
                   (Web2pyStencil.init [] "<string>") "pass")
       (mkCompiler "" 0 0 2 "" "" [])
  = Returns tt
      (mkCompiler "" 0 0 2 "" "" [tab ++ tab ++ "for x in xs:" ++ nl]).
Proof.
  apply (block_then_dedent_restores_level accept_all
           (Web2pyStencil.init [] "<string>") " for x in xs: " "pass"
           (mkCompiler "" 0 0 2 "" "" []) "s"%char);
    try reflexivity.
  simpl. lia.
Defined.

(** X6. A continuation keyword ([elif], [else], [except], [finally])
    that ends with a colon, inside a block: when no pattern matches it,
    it is no dedent token and the host parser accepts it with its stubs,
    it is written one level up and the level is left as it was. *)
Theorem continuation_is_written_one_level_up :
  forall chk st text c,
    0 < level c ->
    Compiler.find_sub (subs st) (strip text) = None ->
    dedent st (strip text) = false ->
    Compiler.continuation (strip text) = true ->
    last_char (strip text) = Some ":"%char ->
    chk (Compiler.add_stubs (strip text)) (filename st) = None ->
    Compiler.process_substitution chk st text c
    = Returns tt
        (set_out (out c ++
                  [Compiler.statement st (level c - 1) (strip text)]) c).
Proof.
  intros chk st text c H0 F D C L K.
  rewrite process_substitution_eq.
  assert (E : is_empty (strip text) = false)
    by (destruct (strip text); [discriminate L | reflexivity]).
  rewrite E, (dispatch_passthrough _ _ _ _ F L). cbv zeta.
  rewrite D, C. simpl orb. cbv iota.
  assert (U : (level c - 1 <? 0) = false) by (apply Z.ltb_ge; lia).
  rewrite U. simpl andb. cbv iota.
  rewrite (validate_spec _ _ _ _ _ L). simpl Ascii.eqb. cbv iota.
  rewrite K.
  destruct c; unfold set_level, set_out; simpl. do 2 f_equal. lia.
Qed.

Lemma continuation_is_written_one_level_up_witness :
  Compiler.process_substitution accept_all
    (ErbStencil.init [] "<string>") "except KeyError:"
    (mkCompiler "" 0 0 1 "" "" [])
  = Returns tt (mkCompiler "" 0 0 1 "" "" ["except KeyError:" ++ nl]).
Proof.
  apply (continuation_is_written_one_level_up accept_all
           (ErbStencil.init [] "<string>") "except KeyError:"
           (mkCompiler "" 0 0 1 "" "" []));
    reflexivity.
Defined.

Lemma while_line_consumes repr chk st (fuel : nat) :
  forall (insub b : bool) (c c' : Compiler),
    (String.length (line c) <= fuel)%nat ->
    Compiler.while_line repr chk st fuel insub c = Returns b c' ->
    line c' = "".
Proof.
  induction fuel as [|fuel IH]; intros insub b c c' L R.
  - apply length_zero in L. inversion R; subst. exact L.
  - rewrite while_line_S in R. cbv zeta in R.
    destruct (is_empty (line c)) eqn:E.
    + inversion R; subst. now apply is_empty_true.
    + destruct (is_empty (if insub then closer st else opener st)) eqn:D;
        [discriminate R|].
      destruct (partition _ (line c)) as [[text found] rest] eqn:P.
      destruct found; cbv beta iota delta [negb] in R.
      * pose proof (partition_shorter _ _ _ _
                      (proj1 (is_empty_false _) D) P) as Sh.
        pose proof (emit_span_fields repr chk st insub text
                      (set_line rest c)) as (F & _).
        destruct (Compiler.emit_span repr chk st insub text
                    (set_line rest c)) as [[] d|e d]; [|discriminate R].
        simpl in F. apply IH in R; [exact R|]. simpl. rewrite F. lia.
      * inversion R; subst. simpl.
        apply partition_not_found_rest in P. tauto.
Qed.

(** X7. The scan loop ends: on a buffer of [n] characters it leaves after
    [n] turns at most, since every turn that stays in the loop consumes a
    non-empty delimiter.  More turns give the same outcome, and when the
    loop returns nothing of the buffer is left unread. *)
Theorem scan_loop_ends :
  forall repr chk st insub c,
    (forall extra,
        Compiler.while_line repr chk st (String.length (line c) + extra)
          insub c
        = Compiler.while_line repr chk st (String.length (line c)) insub c)
    /\ (forall b c',
           Compiler.while_line repr chk st (String.length (line c)) insub c
           = Returns b c' ->
           line c' = "").
Proof.
  intros repr chk st insub c. split.
  - intro extra. apply while_line_fuel; lia.
  - intros b c' R. apply (while_line_consumes _ _ _ _ _ _ _ _ (le_n _) R).
Qed.

Lemma scan_loop_ends_witness :
  line (mkCompiler "" 11 0 0 "" "" ["sys.stdout.write('a')" ++ nl;
                                    "sys.stdout.write(str(b))" ++ nl;
                                    "sys.stdout.write('c')" ++ nl]) = "".
Proof.
  apply (proj2 (scan_loop_ends repr_plain accept_all
                  (Web2pyStencil.init [] "<string>") false
                  (set_line "a{{=b}}c{{" (Compiler_init []))) true).
  reflexivity.
Defined.

(** X8. No text is matched by both patterns of the web2py stencil, so
    the handler found does not depend on the order in which the table is
    gone through. *)
Theorem web2py_patterns_exclusive :
  forall f fname text,
    (StencilBase.match_equal_sign text = None
     \/ Web2pyStencil.match_extend text = None)
    /\ Compiler.find_sub (rev (subs (Web2pyStencil.init f fname))) text
       = Compiler.find_sub (subs (Web2pyStencil.init f fname)) text.
Proof.
  intros f fname text. destruct text as [|ch text].
  - split; [now left | reflexivity].
  - simpl. destruct (Ascii.eqb_spec ch "=") as [->|N].
    + split; [now right | reflexivity].
    + split; [now left|].
      destruct (Web2pyStencil.match_extend (String ch text)); reflexivity.
Qed.

(** X9. The [=] directive of the shipped classes: the white space after
    the equal sign is dropped, the statement [writer(str(expression))] is
    written at the current level, the column moves by the length of the
    matched prefix and the level is left as it is, when the host parser
    accepts the expression. *)
Theorem equal_sign_writes_the_value :
  forall chk cls f fname text rest c ch,
    cls = Web2pyStencil.init \/ cls = ErbStencil.init ->
    strip text = String "=" rest ->
    last_char (lstrip rest) = Some ch ->
    chk (if Ascii.eqb ch ":" then Compiler.add_stubs (lstrip rest)
         else lstrip rest) fname = None ->
    Compiler.process_substitution chk (cls f fname) text c
    = Returns tt
        (set_out (out c ++
                  [Compiler.statement (cls f fname) (level c)
                     ("sys.stdout.write(str(" ++ lstrip rest ++ "))")])
           (set_column (column c + Z.of_nat (S (span_space rest))) c)).
Proof.
  intros chk cls f fname text rest c ch Hcls Hs L K.
  rewrite process_substitution_eq, Hs. cbn [is_empty].
  assert (F : Compiler.find_sub (subs (cls f fname)) (String "=" rest)
              = Some (mkSub StencilBase.match_equal_sign
                        (StencilBase.on_equal_sign
                           StencilBase.default_writer),
                      S (span_space rest)))
    by (destruct Hcls as [-> | ->]; reflexivity).
  rewrite (dispatch_handler _ _ _ _ _ F).
  cbn [drop take sub_func]. rewrite drop_span_space.
  rewrite (validate_spec _ _ _ _ _ L).
  replace (filename (cls f fname)) with fname
    by (destruct Hcls as [-> | ->]; reflexivity).
  rewrite K. reflexivity.
Qed.

Lemma equal_sign_writes_the_value_witness :
  Compiler.process_substitution accept_all
    (Web2pyStencil.init [] "<string>") " =  x + 1 " (Compiler_init [])
  = Returns tt
      (mkCompiler "" 3 0 0 "" "" ["sys.stdout.write(str(x + 1))" ++ nl]).
Proof.
  apply (equal_sign_writes_the_value accept_all Web2pyStencil.init []
           "<string>" " =  x + 1 " "  x + 1" (Compiler_init []) "1"%char);
    try reflexivity.
  now left.
Defined.

(** ** Where [IndexError] comes from *)

Lemma rstrip_last_not_space (s : string) (ch : ascii) :
  last_char (rstrip s) = Some ch -> isspace ch = false.
Proof.
  induction s as [|a s IH]; simpl; [discriminate|].
  destruct (rstrip s) as [|x r] eqn:R.
  - destruct (isspace a) eqn:A; simpl; [discriminate|].
    intro H. inversion H; subst. exact A.
  - intro H. apply IH. exact H.
Qed.

Lemma last_char_cons (a : ascii) (w : string) :
  w <> "" -> last_char (String a w) = last_char w.
Proof. destruct w; [intro H; now elim H | reflexivity]. Qed.

Lemma last_char_app (p w : string) :
  w <> "" -> last_char (p ++ w) = last_char w.
Proof.
  intro H. induction p as [|a p IH]; [reflexivity|].
  simpl append. rewrite last_char_cons; [exact IH|].
  destruct p; simpl; [exact H | discriminate].
Qed.

Lemma blank_last_is_space (w : string) :
  w <> "" -> lstrip w = "" ->
  exists ch, last_char w = Some ch /\ isspace ch = true.
Proof.
  induction w as [|a w IH]; intros N L; [now elim N|].
  simpl in L. destruct (isspace a) eqn:A; [|discriminate L].
  destruct w as [|x w].
  - exists a. auto.
  - destruct (IH ltac:(discriminate) L) as (ch & H1 & H2).
    exists ch. split; [|exact H2]. exact H1.
Qed.

(** A stripped text does not end with a blank suffix. *)
Lemma strip_no_blank_suffix (text p w : string) :
  strip text = p ++ w -> lstrip w = "" -> w = "".
Proof.
  intros S L. destruct w as [|a w]; [reflexivity|]. exfalso.
  destruct (blank_last_is_space (String a w) ltac:(discriminate) L)
    as (ch & H1 & H2).
  pose proof (rstrip_last_not_space (lstrip text) ch) as N.
  fold (strip text) in N. rewrite S, last_char_app in N by discriminate.
  rewrite (N H1) in H2. discriminate H2.
Qed.

(** X10. With the shipped classes, a directive raises [IndexError] in
    one case only: when its text, white space aside, is the lone equal
    sign. *)
Theorem index_error_only_for_lone_equal_sign :
  forall chk cls f fname text c,
    cls = Web2pyStencil.init \/ cls = ErbStencil.init ->
    (exists c', Compiler.process_substitution chk (cls f fname) text c
                = Raises IndexError c')
    <-> strip text = "=".
Proof.
  intros chk cls f fname text c Hcls. split.
  - intros (c' & R). rewrite process_substitution_eq in R.
    destruct (is_empty (strip text)) eqn:E; [discriminate R|].
    destruct (Compiler.find_sub (subs (cls f fname)) (strip text))
      as [[s e]|] eqn:F.
    + rewrite (dispatch_handler _ _ _ _ _ F) in R.
      destruct (last_char (drop e (strip text))) as [ch|] eqn:L.
      * rewrite (validate_spec _ _ _ _ _ L) in R.
        destruct (chk _ _) as [[msg off]|]; discriminate R.
      * assert (D : drop e (strip text) = "").
        { destruct (drop e (strip text)) eqn:D'; [reflexivity|].
          destruct (last_char_nonempty (String a s0) eq_refl) as (x & X).
          rewrite X in L. discriminate L. }
        clear R L.
        destruct (strip text) as [|a t] eqn:T; [discriminate E|].
        assert (G : (StencilBase.match_equal_sign (String a t) = Some e)
                    \/ (Web2pyStencil.match_extend (String a t) = Some e)).
        { destruct Hcls as [-> | ->]; simpl in F.
          - destruct (Ascii.eqb a "=") eqn:A.
            + inversion F; subst. left. simpl. now rewrite A.
            + destruct (Web2pyStencil.match_extend (String a t)) eqn:X;
                [|discriminate F].
              inversion F; subst. now right.
          - destruct (Ascii.eqb a "=") eqn:A; [|discriminate F].
            inversion F; subst. left. simpl. now rewrite A. }
        destruct G as [G | G].
        -- simpl in G. destruct (Ascii.eqb_spec a "=") as [->|];
             [|discriminate G].
           inversion G; subst e. simpl in D. rewrite drop_span_space in D.
           rewrite (strip_no_blank_suffix text "=" t T D). reflexivity.
        -- unfold Web2pyStencil.match_extend, startswith in G.
           destruct (String.prefix "extend" (String a t)) eqn:P;
             [|discriminate G].
           destruct (span_space (drop 6 (String a t))) as [|n] eqn:Sp;
             [discriminate G|].
           inversion G; subst e.
           pose proof (prefix_split _ _ P) as Q.
           change (String.length "extend") with 6%nat in Q.
           assert (W : lstrip (drop 6 (String a t)) = "").
           { rewrite <- drop_span_space, Sp.
             rewrite <- D. clear.
             generalize (String a t). intro s.
             change (6 + S n)%nat with (S (S (S (S (S (S (S n))))))).
             do 6 (destruct s as [|? s]; [destruct n; reflexivity|]).
             reflexivity. }
           pose proof (strip_no_blank_suffix text "extend"
                         (drop 6 (String a t)) (eq_trans T Q) W) as Z0.
           rewrite Z0 in Sp. discriminate Sp.
    + destruct (last_char_nonempty _ E) as (ch & L).
      rewrite (dispatch_passthrough _ _ _ _ F L) in R. cbv zeta in R.
      destruct (_ && _); [discriminate R|].
      rewrite (validate_spec _ _ _ _ _ L) in R.
      destruct (chk _ _) as [[msg off]|]; discriminate R.
  - intro T. rewrite process_substitution_eq, T.
    destruct Hcls as [-> | ->]; eexists; reflexivity.
Qed.

Lemma index_error_only_for_lone_equal_sign_witness :
  (exists c', Compiler.process_substitution accept_all
                (ErbStencil.init [] "<string>") (" =" ++ nl)
                (Compiler_init [])
              = Raises IndexError c')
  <-> strip (" =" ++ nl) = "=".
Proof.
  apply (index_error_only_for_lone_equal_sign accept_all ErbStencil.init []
           "<string>" (" =" ++ nl) (Compiler_init [])).
  now right.
Defined.
